(** * fit_data.py: temperature regression pipeline

    A shallow embedding of [src/fit_data.py]: the prompt loop of
    [get_user_input], the cleaning steps of [read_data], the fit and the
    predictions of [fit_data], the two CSV writers, the plot writer and
    [main], followed by the properties proved of them.

    Conventions.
    - float64 values are Rocq's primitive binary64 floats, so arithmetic
      such as [T * 9 / 5 + 32] is the IEEE arithmetic the program runs.
    - Python strings are byte strings (UTF-8); paths follow [posixpath].
    - A function that can raise returns a [result]; a function with effects
      (console, files) is a state transformer over a [world], in the monad
      [M]. A raised exception leaves the world as it was at that point.
    - Routines of pandas, numpy and matplotlib whose code is not part of the
      program (number parsing and printing, date parsing, the least-squares
      solver, rendering) are fields of a record [Libs]; every definition and
      theorem is parametric in it. What the program itself decides (which
      rows to drop, which degree to fit, which labels, paths and columns to
      write) is modelled in full.
    - What two of these routines are meant to compute is stated apart, as
      contracts: [lstsq_law] (the solve returns least-squares coefficients)
      and [day_count_law] ([date2num] is the day count of matplotlib). A
      theorem that needs a contract takes it as a hypothesis.
    - [demo_libs] is a small instance of [Libs] on which the model runs; it
      serves the worked examples. [demo_libs_exact] is an instance that
      keeps the two contracts. *)

From Stdlib Require Import ZArith QArith String Ascii List Floats DecimalString Lia.
From stdpp Require Import base option list strings gmap.

Close Scope Q_scope.
Open Scope string_scope.
Open Scope list_scope.

(** ** Exceptions and results *)

Inductive exn :=
| EOFError
| FileNotFoundError
| KeyError
| TypeError
| ValueError
| NotImplementedError
| LinAlgError
| BadZipFile
| OtherError (name : string).

Inductive result (A : Type) :=
| Ok (a : A)
| Raise (e : exn).
Arguments Ok {A} a.
Arguments Raise {A} e.

Definition result_bind {A B} (r : result A) (k : A -> result B) : result B :=
  match r with
  | Ok a => k a
  | Raise e => Raise e
  end.

(** Apply a fallible function to every element, left to right; the first
    failure is the failure of the whole. *)
Fixpoint result_map {A B} (f : A -> result B) (l : list A) : result (list B) :=
  match l with
  | [] => Ok []
  | a :: l' =>
      result_bind (f a) (fun b =>
      result_bind (result_map f l') (fun bs => Ok (b :: bs)))
  end.

(** ** Strings *)

Definition is_upper (c : ascii) : bool :=
  let n := nat_of_ascii c in (65 <=? n)%nat && (n <=? 90)%nat.

Definition lower_ascii (c : ascii) : ascii :=
  if is_upper c then ascii_of_nat (nat_of_ascii c + 32) else c.

(** [str.lower()] on ASCII; bytes outside A-Z are left as they are. The only
    characters outside ASCII whose lower case is an ASCII letter give [k],
    which neither [linear] nor [quadratic] has, so the membership test of
    the prompt loop is decided as in Python, and a mode that is returned is
    the text Python returns. On a rejected line that has capitals outside
    ASCII the text differs from Python's; the properties of the rejection
    lines are stated for lines of ASCII characters ([is_ascii]). *)
Fixpoint lower (s : string) : string :=
  match s with
  | EmptyString => EmptyString
  | String c r => String (lower_ascii c) (lower r)
  end.

(** Whether every byte of the text is an ASCII character. *)
Fixpoint is_ascii (s : string) : bool :=
  match s with
  | EmptyString => true
  | String c r => (nat_of_ascii c <? 128)%nat && is_ascii r
  end.

Definition sep : ascii := "/"%char.
Definition comma : ascii := ","%char.
Definition dquote : ascii := "034"%char.
Definition newline : ascii := "010"%char.
Definition creturn : ascii := "013"%char.

Definition ascii_eqb (a b : ascii) : bool := Ascii.eqb a b.

Fixpoint contains (c : ascii) (s : string) : bool :=
  match s with
  | EmptyString => false
  | String d r => ascii_eqb d c || contains c r
  end.

Fixpoint all_char (c : ascii) (s : string) : bool :=
  match s with
  | EmptyString => true
  | String d r => ascii_eqb d c && all_char c r
  end.

Definition is_empty (s : string) : bool :=
  match s with EmptyString => true | _ => false end.

Fixpoint ends_with (c : ascii) (s : string) : bool :=
  match s with
  | EmptyString => false
  | String d EmptyString => ascii_eqb d c
  | String _ r => ends_with c r
  end.

Definition starts_with (c : ascii) (s : string) : bool :=
  match s with
  | EmptyString => false
  | String d _ => ascii_eqb d c
  end.

(** [sep.join(parts)] *)
Fixpoint join (c : ascii) (parts : list string) : string :=
  match parts with
  | [] => EmptyString
  | [p] => p
  | p :: ps => p +:+ String c (join c ps)
  end.

(** The texts one after the other. *)
Definition concat_text (l : list string) : string :=
  fold_right String.append EmptyString l.

(** ** Paths (posixpath) *)

(** [p[:p.rfind('/') + 1]] *)
Fixpoint upto_last_sep (p : string) : string :=
  match p with
  | EmptyString => EmptyString
  | String c r =>
      if contains sep r then String c (upto_last_sep r)
      else if ascii_eqb c sep then String c EmptyString
      else EmptyString
  end.

(** [head.rstrip('/')] *)
Fixpoint rstrip_sep (s : string) : string :=
  match s with
  | EmptyString => EmptyString
  | String c r =>
      let r' := rstrip_sep r in
      if ascii_eqb c sep && is_empty r' then EmptyString else String c r'
  end.

(** [os.path.dirname] *)
Definition dirname (p : string) : string :=
  let head := upto_last_sep p in
  if negb (is_empty head) && negb (all_char sep head)
  then rstrip_sep head
  else head.

(** [os.path.basename]: the text after the last slash. *)
Fixpoint basename (p : string) : string :=
  match p with
  | EmptyString => EmptyString
  | String c r =>
      if contains sep r then basename r
      else if ascii_eqb c sep then r
      else p
  end.

(** [os.path.join(a, b)] *)
Definition path_join (a b : string) : string :=
  if starts_with sep b then b
  else if is_empty a || ends_with sep a then a +:+ b
  else a +:+ String sep b.

(** ** Cells and tables *)

(** The value held by one cell of a table: what [read_excel] can put in an
    object column, and the typed values the later steps store. A time stamp
    is held as nanoseconds since the epoch. *)
Inductive cell :=
| CNone
| CFloat (f : float)
| CInt (z : Z)
| CBool (b : bool)
| CStr (s : string)
| CTime (t : Z)
| CNaT.

Definition is_time (c : cell) : bool :=
  match c with CTime _ => true | _ => false end.

(** pandas' notion of a missing value: [None], NaN and NaT. *)
Definition isna (c : cell) : bool :=
  match c with
  | CNone | CNaT => true
  | CFloat f => PrimFloat.is_nan f
  | _ => false
  end.

Definition notna (c : cell) : bool := negb (isna c).

(** A data frame: the column labels in order and the rows in order, each row
    holding one cell per column. The row index is left out: the program
    writes with [index=False] and every assignment it makes is between
    objects that carry the same index. *)
Record DataFrame := mkDataFrame {
  columns : list string;
  rows : list (list cell)
}.

Definition col_TimeStamp : string := "Time-Stamp".
Definition col_TempC : string := "Temperature/°C".
Definition col_TempF : string := "Temperature/°F".
Definition col_PredC : string := "Prediction/°C".
Definition col_PredF : string := "Prediction/°F".

Fixpoint col_index (name : string) (cols : list string) : option nat :=
  match cols with
  | [] => None
  | c :: cs =>
      if String.eqb c name then Some 0%nat
      else option_map S (col_index name cs)
  end.

(** [df[name]]: the column as a list, or [KeyError]. *)
Definition get_col (df : DataFrame) (name : string) : result (list cell) :=
  match col_index name (columns df) with
  | None => Raise KeyError
  | Some i => Ok (map (fun r => nth i r CNone) (rows df))
  end.

(** [df[name] = values]: replaces the column when the label exists, appends
    it as the last column otherwise; [ValueError] when the number of values
    is not the number of rows. *)
Definition set_col (df : DataFrame) (name : string) (values : list cell)
  : result DataFrame :=
  if negb (length values =? length (rows df))%nat then Raise ValueError
  else
    match col_index name (columns df) with
    | Some i =>
        Ok (mkDataFrame (columns df)
              (zip_with (fun r v => <[i:=v]> r) (rows df) values))
    | None =>
        Ok (mkDataFrame (columns df ++ [name])
              (zip_with (fun r v => r ++ [v]) (rows df) values))
    end.

(** [df[mask]] with a boolean mask: the rows whose flag is set, in order. *)
Fixpoint select_mask {A} (l : list A) (mask : list bool) : list A :=
  match l, mask with
  | a :: l', b :: mask' =>
      if b then a :: select_mask l' mask' else select_mask l' mask'
  | _, _ => []
  end.

(** [df.dropna(how='any', axis=0, ignore_index=True)] *)
Definition dropna_any (df : DataFrame) : DataFrame :=
  mkDataFrame (columns df) (List.filter (forallb notna) (rows df)).

(** ** Files and the console *)

(** What a path can hold: a workbook whose sheet has three columns (one
    triple of cells per sheet row, the sheet may have no row), a text file,
    or a PNG image. *)
Inductive file :=
| Workbook (sheet : list (cell * cell * cell))
| TextFile (text : string)
| ImageFile (bytes : string).

(** The world a run acts on: the lines still to be typed at the console, the
    texts printed so far (one per [print] or prompt), and the files. There
    are no directories: a write to any path succeeds. A file is found under
    the text of its path, so two spellings of one path ([run//x] and
    [run/x]) are two keys; the properties that tell files apart do it by the
    last component of the path, which all spellings of a path share. *)
Record world := mkWorld {
  stdin : list string;
  stdout : list string;
  fs : gmap string file
}.

(** Whether a file content may start with one of the signatures that
    [pd.read_excel] looks for: the zip signature [PK] 03 04, or an XLS
    signature, which begins with the byte 09 or D0. *)
Definition has_excel_signature (text : string) : bool :=
  match text with
  | String "P" (String "K" (String "003" (String "004" _))) => true
  | String c _ =>
      let n := nat_of_ascii c in (n =? 9)%nat || (n =? 208)%nat
  | EmptyString => false
  end.

(** ** Library routines *)

(** The routines of pandas, numpy and matplotlib that the program calls and
    whose code is outside the repository. *)
Record Libs := mkLibs {
  (** number parsing of [pd.to_numeric] on a string *)
  pd_parse_number : string -> option float;
  (** [float(s)], used by [astype('float64')] on a string *)
  py_float : string -> option float;
  (** int to float64 *)
  float_of_int : Z -> float;
  (** [pd.to_datetime] on one value of a column; the column is given too,
      since the format is inferred from it *)
  to_datetime_value : list cell -> cell -> result Z;
  (** [matplotlib.dates.date2num] on a datetime64 value: days since the
      epoch *)
  date2num : Z -> float;
  (** the least-squares solve at the end of [np.polyfit] (scaled
      Vandermonde matrix, [lstsq]), given x, y and the degree *)
  lstsq_solve : list float -> list float -> nat -> result (list float);
  (** the text [to_csv] writes for one value; the column is given too,
      since date columns are formatted as a whole *)
  csv_value : list cell -> cell -> string;
  (** [repr(df)], as [print(df)] shows it *)
  frame_repr : DataFrame -> string;
  (** [df.to_string(index=False)] *)
  frame_to_string : DataFrame -> string;
  (** the PNG bytes of the figure that [plot_data] draws and saves *)
  render_figure : DataFrame -> string -> result string;
  (** whether [pd.read_excel] makes a datetime64 column of a sheet column
      that holds dates and empty cells and nothing else *)
  infers_datetime64 : list cell -> bool;
  (** the exception of [pd.read_excel] on a file that starts like an Excel
      or zip file and is no workbook *)
  excel_open_error : string -> exn
}.

(** ** The effect monad *)

Definition M (A : Type) : Type := world -> result A * world.

Definition ret {A} (a : A) : M A := fun w => (Ok a, w).

Definition bind {A B} (m : M A) (k : A -> M B) : M B :=
  fun w =>
    match m w with
    | (Ok a, w') => k a w'
    | (Raise e, w') => (Raise e, w')
    end.

Definition raise {A} (e : exn) : M A := fun w => (Raise e, w).

Definition lift {A} (r : result A) : M A := fun w => (r, w).

Notation "'do' x <- m ; k" := (bind m (fun x => k))
  (at level 10, x name, m at level 100, k at level 200).
Notation "'do' ' pat <- m ; k" :=
  (bind m (fun x => match x with pat => k end))
  (at level 10, pat pattern, m at level 100, k at level 200).
Notation "'run' m ; k" := (bind m (fun _ => k))
  (at level 10, m at level 100, k at level 200).

(** [print(s)] *)
Definition print (s : string) : M unit :=
  fun w => (Ok tt, mkWorld (stdin w) (stdout w ++ [s]) (fs w)).

(** [input(prompt)]: shows the prompt, then takes one line; [EOFError] at the
    end of the input. *)
Definition input (prompt : string) : M string :=
  fun w =>
    let out := stdout w ++ [prompt] in
    match stdin w with
    | [] => (Raise EOFError, mkWorld [] out (fs w))
    | l :: ls => (Ok l, mkWorld ls out (fs w))
    end.

(** [open(path, 'w')] and write: the file at [path] becomes [f], whatever
    was there. *)
Definition write_file (path : string) (f : file) : M unit :=
  fun w => (Ok tt, mkWorld (stdin w) (stdout w) (<[path := f]> (fs w))).

(** ** celsius_to_fahrenheit *)

Definition celsius_to_fahrenheit (T : float) : float :=
  (T * 9 / 5 + 32)%float.

(** ** get_user_input *)

Definition prompt_path : string :=
  String newline "Enter the file relative path (with .xlsx): ".
Definition prompt_option : string :=
  "Choose the fit option (linear or quadratic): ".
Definition invalid_option (fit_option : string) : string :=
  "Invalid option: '" +:+ fit_option
  +:+ "'. Please choose 'linear' or 'quadratic'.".

Definition valid_option (fit_option : string) : bool :=
  String.eqb fit_option "linear" || String.eqb fit_option "quadratic".

(** The [while True] loop. Every turn takes one line of input, so the loop
    is written by recursion on the lines that are left; when they run out,
    [input] raises [EOFError]. *)
Fixpoint ask_fit_option (lines : list string) : M string :=
  match lines with
  | [] => input prompt_option
  | _ :: lines' =>
      do l <- input prompt_option;
      let fit_option := lower l in
      if valid_option fit_option then ret fit_option
      else run print (invalid_option fit_option); ask_fit_option lines'
  end.

Definition get_user_input : M (string * string) :=
  do file_path <- input prompt_path;
  do fit_option <- (fun w => ask_fit_option (stdin w) w);
  ret (file_path, fit_option).

(** The console lines of the turns that reject the inputs [rejected]. *)
Definition rejection_lines (rejected : list string) : list string :=
  flat_map (fun l => [prompt_option; invalid_option (lower l)]) rejected.

Section Pipeline.

Variable L : Libs.

(** ** read_data *)

(** [pd.read_excel(file_path, header=None, names=[...])]. A sheet without
    rows gives a table without columns: the names are not applied. A file
    that is no workbook is refused by its first bytes: [ValueError] ("Excel
    file format cannot be determined") unless it starts like an XLS or a zip
    file, in which case the engine that is tried raises its own exception.
    A PNG file starts with the PNG signature, which is neither. *)
Definition read_excel (file_path : string) : M DataFrame :=
  fun w =>
    match fs w !! file_path with
    | None => (Raise FileNotFoundError, w)
    | Some (Workbook []) => (Ok (mkDataFrame [] []), w)
    | Some (Workbook sheet) =>
        (Ok (mkDataFrame [col_TimeStamp; col_TempC; col_TempF]
               (map (fun '(t, c, f) => [t; c; f]) sheet)), w)
    | Some (TextFile text) =>
        (Raise (if has_excel_signature text then excel_open_error L text
                else ValueError), w)
    | Some (ImageFile _) => (Raise ValueError, w)
    end.

(** The dtype of a column as [pd.read_excel] builds it: datetime64 when the
    column holds dates only; object or a numeric dtype when it holds no date,
    or a date beside a number, a truth value or a text; decided by the
    library when it holds dates and empty cells. *)
Definition datetime64_column (col : list cell) : bool :=
  existsb is_time col
  && forallb (fun c => is_time c || isna c) col
  && (forallb is_time col || infers_datetime64 L col).

Definition celsius_is_datetime64 (data : DataFrame) : bool :=
  match get_col data col_TempC with
  | Ok col => datetime64_column col
  | Raise _ => false
  end.

(** [pd.to_numeric(col, errors='coerce')] on one value of an object column:
    numbers stay, a string becomes the number it parses to, anything else
    becomes NaN. *)
Definition to_numeric_coerce (c : cell) : cell :=
  match c with
  | CFloat f => CFloat f
  | CInt z => CInt z
  | CBool b => CBool b
  | CStr s =>
      match pd_parse_number L s with
      | Some f => CFloat f
      | None => CFloat nan
      end
  | _ => CFloat nan
  end.

(** [pd.to_datetime(col)] *)
Definition to_datetime (col : list cell) : result (list cell) :=
  result_map
    (fun c => result_bind (to_datetime_value L col c) (fun t => Ok (CTime t)))
    col.

(** [col.astype('float64')] on one value *)
Definition to_float64 (c : cell) : result float :=
  match c with
  | CFloat f => Ok f
  | CInt z => Ok (float_of_int L z)
  | CBool b => Ok (if b then 1%float else 0%float)
  | CStr s =>
      match py_float L s with
      | Some f => Ok f
      | None => Raise ValueError
      end
  | CNone => Ok nan
  | CTime _ | CNaT => Raise TypeError
  end.

Definition astype_float64 (col : list cell) : result (list cell) :=
  result_map (fun c => result_bind (to_float64 c) (fun f => Ok (CFloat f))) col.

(** [pd.to_numeric(col, errors='coerce').notnull()] on a column of the given
    dtype. A datetime64 column becomes its int64 nanoseconds, so every value
    but NaT counts as a number; any other column is taken value by value. *)
Definition to_numeric_notnull (dated : bool) (col : list cell) : list bool :=
  if dated then map notna col
  else map (fun c => notna (to_numeric_coerce c)) col.

(** [col.astype('float64')] on a column of the given dtype: pandas refuses
    to cast datetime64 to float64, whatever the column holds. *)
Definition astype_float64_of (dated : bool) (col : list cell)
  : result (list cell) :=
  if dated then Raise TypeError else astype_float64 col.

(** [read_data], line by line. The dtype of the Celsius column is fixed when
    the sheet is read; dropping rows does not change it. *)
Definition read_data (file_path : string) : M DataFrame :=
  do data <- read_excel file_path;
  let dated := celsius_is_datetime64 data in
  let data := dropna_any data in
  do celsius <- lift (get_col data col_TempC);
  let data :=
    mkDataFrame (columns data)
      (select_mask (rows data) (to_numeric_notnull dated celsius)) in
  do stamps <- lift (get_col data col_TimeStamp);
  do stamps <- lift (to_datetime stamps);
  do data <- lift (set_col data col_TimeStamp stamps);
  do celsius <- lift (get_col data col_TempC);
  do celsius <- lift (astype_float64_of dated celsius);
  do data <- lift (set_col data col_TempC celsius);
  run print (String newline "Data extracted:");
  run print (frame_repr L data);
  ret data.

(** ** fit_data *)

(** [col.values] of a datetime64 column, and of a float64 column. On a table
    that was not cleaned the arrays have another dtype and what the libraries
    do with them depends on it; the model raises [TypeError] there. *)
Definition datetime64_values (col : list cell) : result (list Z) :=
  result_map (fun c => match c with CTime t => Ok t | _ => Raise TypeError end) col.

Definition float64_values (col : list cell) : result (list float) :=
  result_map (fun c => match c with CFloat f => Ok f | _ => Raise TypeError end) col.

(** [np.polyfit(x, y, deg)]: the argument checks of numpy ("expected
    non-empty vector for x", "expected x and y to have same length", both
    [TypeError]), then the least-squares solve. *)
Definition polyfit (x y : list float) (deg : nat) : result (list float) :=
  if (length x =? 0)%nat then Raise TypeError
  else if negb (length x =? length y)%nat then Raise TypeError
  else lstsq_solve L x y deg.

(** [np.polyval(p, x)] at one point: Horner's scheme from the highest
    power. *)
Definition polyval (p : list float) (x : float) : float :=
  fold_left (fun y pv => (y * x + pv)%float) p 0%float.

(** [pd.DataFrame([values], columns=labels)] *)
Definition frame_of_row (values : list cell) (labels : list string)
  : result DataFrame :=
  if (length values =? length labels)%nat
  then Ok (mkDataFrame labels [values])
  else Raise ValueError.

(** [fit_data], line by line. The program adds the two columns to the table
    it was given and returns that table; here the table with the columns
    added is returned as a new value (the caller drops the old one). *)
Definition fit_data (data : DataFrame) (fit_option : string)
  : M (DataFrame * DataFrame) :=
  do x <- lift (result_bind (get_col data col_TimeStamp) datetime64_values);
  do y <- lift (result_bind (get_col data col_TempC) float64_values);
  let x_num := map (date2num L) x in
  do '(params, params_labels) <-
    (if String.eqb fit_option "linear" then
       do params <- lift (polyfit x_num y 1);
       run print (String newline "Linear fit parameters: ax + b");
       ret (params, ["a"; "b"])
     else if String.eqb fit_option "quadratic" then
       do params <- lift (polyfit x_num y 2);
       run print (String newline "Quadratic fit parameters: ax^2 + bx + c");
       ret (params, ["a"; "b"; "c"])
     else raise NotImplementedError);
  do data <- lift (set_col data col_PredC
                     (map CFloat (map (polyval params) x_num)));
  do pred_c <- lift (result_bind (get_col data col_PredC) float64_values);
  do data <- lift (set_col data col_PredF
                     (map CFloat (map celsius_to_fahrenheit pred_c)));
  do params <- lift (frame_of_row (map CFloat params) params_labels);
  ret (data, params).

(** ** Writers *)

(** [csv.QUOTE_MINIMAL]: a field is quoted when it holds the delimiter, the
    quote character or a line break; quote characters inside are doubled. *)
Definition needs_quoting (s : string) : bool :=
  contains comma s || contains dquote s || contains newline s
  || contains creturn s.

Fixpoint double_quotes (s : string) : string :=
  match s with
  | EmptyString => EmptyString
  | String c r =>
      if ascii_eqb c dquote then String c (String c (double_quotes r))
      else String c (double_quotes r)
  end.

Definition csv_field (s : string) : string :=
  if needs_quoting s
  then String dquote (double_quotes s) +:+ String dquote EmptyString
  else s.

Definition csv_line (fields : list string) : string :=
  join comma (map csv_field fields) +:+ String newline EmptyString.

(** Column [j] of the rows. *)
Definition column_at (rs : list (list cell)) (j : nat) : list cell :=
  map (fun r => nth j r CNone) rs.

(** The texts of the values of one row, each formatted within its column. *)
Definition row_texts (rs : list (list cell)) (r : list cell) : list string :=
  imap (fun j c => csv_value L (column_at rs j) c) r.

(** The records of [df.to_csv(index=False)]: the header, then one record
    per row. *)
Definition csv_records (df : DataFrame) : list (list string) :=
  columns df :: map (row_texts (rows df)) (rows df).

Definition csv_text (df : DataFrame) : string :=
  concat_text (map csv_line (csv_records df)).

(** [df.to_csv(save_path, index=False)] *)
Definition to_csv (df : DataFrame) (save_path : string) : M unit :=
  write_file save_path (TextFile (csv_text df)).

Definition fit_parameters_name (fit_option : string) : string :=
  fit_option +:+ "_fit_parameters.csv".
Definition predictions_name (fit_option : string) : string :=
  fit_option +:+ "_predictions.csv".
Definition figure_name (fit_option : string) : string :=
  fit_option +:+ "_fit.png".

Definition save_fit_params (params : DataFrame) (fit_option data_folder_path : string)
  : M unit :=
  let save_path := path_join data_folder_path (fit_parameters_name fit_option) in
  run to_csv params save_path;
  print (frame_to_string L params).

Definition save_predictions (data : DataFrame) (fit_option data_folder_path : string)
  : M unit :=
  let save_path := path_join data_folder_path (predictions_name fit_option) in
  run to_csv data save_path;
  run print (String newline "Predictions:");
  print (frame_repr L data).

Definition plot_data (data : DataFrame) (fit_option data_folder_path : string)
  : M unit :=
  do png <- lift (render_figure L data fit_option);
  let save_path := path_join data_folder_path (figure_name fit_option) in
  write_file save_path (ImageFile png).

(** ** main *)

Definition main : M unit :=
  do '(data_file_path, fit_option) <- get_user_input;
  let data_folder_path := dirname data_file_path in
  do data <- read_data data_file_path;
  do '(data, params) <- fit_data data fit_option;
  run save_fit_params params fit_option data_folder_path;
  run save_predictions data fit_option data_folder_path;
  plot_data data fit_option data_folder_path.

(** ** Reference descriptions

    The tables and values in which the properties below are stated. *)

(** A cleaned observation: the time stamp, the Celsius value and the
    Fahrenheit cell of one row. *)
Definition observation : Type := Z * float * cell.

Definition obs_time (o : observation) : Z := o.1.1.
Definition obs_celsius (o : observation) : float := o.1.2.
Definition obs_fahrenheit (o : observation) : cell := o.2.

Definition obs_row (o : observation) : list cell :=
  [CTime (obs_time o); CFloat (obs_celsius o); obs_fahrenheit o].

(** The table [read_data] returns for the observations [obs]. *)
Definition frame_of_obs (obs : list observation) : DataFrame :=
  mkDataFrame [col_TimeStamp; col_TempC; col_TempF] (map obs_row obs).

(** What the mode decides in [fit_data]: the degree, the labels and the line
    printed. *)
Definition fit_mode (fit_option : string) : option (nat * list string * string) :=
  if String.eqb fit_option "linear"
  then Some (1%nat, ["a"; "b"], String newline "Linear fit parameters: ax + b")
  else if String.eqb fit_option "quadratic"
  then Some (2%nat, ["a"; "b"; "c"],
             String newline "Quadratic fit parameters: ax^2 + bx + c")
  else None.

Definition x_num_of (obs : list observation) : list float :=
  map (fun o => date2num L (obs_time o)) obs.

Definition prediction (params : list float) (o : observation) : float :=
  polyval params (date2num L (obs_time o)).

Definition augmented_row (params : list float) (o : observation) : list cell :=
  obs_row o ++ [CFloat (prediction params o);
                CFloat (celsius_to_fahrenheit (prediction params o))].

(** The table [fit_data] returns for the observations [obs] and the fitted
    coefficients [params]. *)
Definition augmented (obs : list observation) (params : list float) : DataFrame :=
  mkDataFrame [col_TimeStamp; col_TempC; col_TempF; col_PredC; col_PredF]
    (map (augmented_row params) obs).

Definition params_frame (labels : list string) (params : list float) : DataFrame :=
  mkDataFrame labels [map CFloat params].

Definition sheet_row (r : cell * cell * cell) : list cell := [r.1.1; r.1.2; r.2].

(** A sheet row survives the two filters of [read_data] when no cell of it
    is missing and its Celsius cell is a number or a string that parses to
    one. *)
Definition valid_row (r : cell * cell * cell) : bool :=
  (notna r.1.1 && notna r.1.2 && notna r.2)
  && notna (to_numeric_coerce r.1.2).

Definition kept_rows (sheet : list (cell * cell * cell)) : list (cell * cell * cell) :=
  List.filter valid_row sheet.

(** A sheet row survives [dropna] when no cell of it is missing. *)
Definition complete_row (r : cell * cell * cell) : bool :=
  notna r.1.1 && notna r.1.2 && notna r.2.

(** The conversions of the two typed columns, as values. *)
Definition datetime_values (col : list cell) : result (list Z) :=
  result_map (to_datetime_value L col) col.

Definition celsius_values (col : list cell) : result (list float) :=
  result_map to_float64 col.

(** The observations built from the converted columns. *)
Definition observations (stamps : list Z) (celsius : list float)
    (kept : list (cell * cell * cell)) : list observation :=
  zip (zip stamps celsius) (map snd kept).

(** What [read_data] makes of the sheet of a workbook, in the world [w]. *)
Definition loaded (sheet : list (cell * cell * cell)) (w : world)
  : result DataFrame * world :=
  match sheet with
  | [] => (Raise KeyError, w)
  | _ :: _ =>
      if datetime64_column (map (fun r => r.1.2) sheet) then
        match datetime_values (map (fun r => r.1.1) (List.filter complete_row sheet)) with
        | Raise e => (Raise e, w)
        | Ok _ => (Raise TypeError, w)
        end
      else
        let kept := kept_rows sheet in
        match datetime_values (map (fun r => r.1.1) kept) with
        | Raise e => (Raise e, w)
        | Ok stamps =>
            match celsius_values (map (fun r => r.1.2) kept) with
            | Raise e => (Raise e, w)
            | Ok celsius =>
                let data := frame_of_obs (observations stamps celsius kept) in
                (Ok data,
                 mkWorld (stdin w)
                   (stdout w ++ [String newline "Data extracted:"; frame_repr L data])
                   (fs w))
            end
        end
  end.

(** The file system after the two CSV files are written. *)
Definition with_csv_files (f : gmap string file) (folder fit_option : string)
    (data params : DataFrame) : gmap string file :=
  <[path_join folder (predictions_name fit_option) := TextFile (csv_text data)]>
    (<[path_join folder (fit_parameters_name fit_option)
         := TextFile (csv_text params)]> f).

End Pipeline.

(** * What the fit is meant to be

    The contracts of the two numeric routines that [fit_data] relies on,
    stated on the numbers that the floats stand for. *)











(** * A small instance of the library routines

    Simple stand-ins for the routines of [Libs], used to run the model on
    concrete inputs: integers in decimal, floats printed exactly as mantissa
    and binary exponent, time stamps given as nanoseconds, and a
    normal-equations solver for the two degrees the program asks for. *)

Definition demo_float_of_int (z : Z) : float :=
  SF2Prim (binary_normalize prec emax z 0 false).

Definition demo_int_text (z : Z) : string :=
  NilZero.string_of_int (Z.to_int z).

Definition demo_parse_int (s : string) : option Z :=
  match s with
  | EmptyString => None
  | String "-" EmptyString => None
  | _ => option_map Z.of_int (NilZero.int_of_string s)
  end.

(** The text before the first [c], and the text after it if there is one. *)
Fixpoint split_at (c : ascii) (s : string) : string * option string :=
  match s with
  | EmptyString => (EmptyString, None)
  | String d r =>
      if ascii_eqb d c then (EmptyString, Some r)
      else let '(a, b) := split_at c r in (String d a, b)
  end.

Definition demo_float_text (f : float) : string :=
  match Prim2SF f with
  | S754_zero s => if s then "-0p0" else "0"
  | S754_infinity s => if s then "-inf" else "inf"
  | S754_nan => EmptyString
  | S754_finite s m e =>
      (if s then "-" else "") +:+ demo_int_text (Zpos m) +:+ "p" +:+ demo_int_text e
  end.

Definition demo_parse_float (s : string) : option float :=
  if String.eqb s "inf" then Some infinity
  else if String.eqb s "-inf" then Some neg_infinity
  else if String.eqb s "-0p0" then Some neg_zero
  else
    match split_at "p" s with
    | (m, None) => option_map demo_float_of_int (demo_parse_int m)
    | (m, Some e) =>
        match demo_parse_int m, demo_parse_int e with
        | Some (Zpos p), Some e => Some (SF2Prim (S754_finite false p e))
        | Some (Zneg p), Some e => Some (SF2Prim (S754_finite true p e))
        | _, _ => None
        end
    end.

Definition demo_to_datetime (col : list cell) (c : cell) : result Z :=
  match c with
  | CTime t => Ok t
  | CInt z => Ok z
  | CStr s =>
      match demo_parse_int s with
      | Some z => Ok z
      | None => Raise ValueError
      end
  | _ => Raise TypeError
  end.

Definition demo_date2num (t : Z) : float :=
  (demo_float_of_int t / 86400000000000)%float.

Definition fsum (l : list float) : float := fold_left PrimFloat.add l 0%float.

Definition det3 (a b c d e f g h i : float) : float :=
  (a * (e * i - f * h) - b * (d * i - f * g) + c * (d * h - e * g))%float.

(** Least squares by the normal equations and Cramer's rule. *)
Definition demo_lstsq (x y : list float) (deg : nat) : result (list float) :=
  let n := fsum (map (fun _ => 1%float) x) in
  let s1 := fsum x in
  let s2 := fsum (map (fun v => v * v)%float x) in
  let t0 := fsum y in
  let t1 := fsum (zip_with PrimFloat.mul x y) in
  match deg with
  | 1%nat =>
      let d := (n * s2 - s1 * s1)%float in
      Ok [((n * t1 - s1 * t0) / d)%float; ((s2 * t0 - s1 * t1) / d)%float]
  | 2%nat =>
      let s3 := fsum (map (fun v => v * v * v)%float x) in
      let s4 := fsum (map (fun v => v * v * v * v)%float x) in
      let t2 := fsum (zip_with PrimFloat.mul (map (fun v => v * v)%float x) y) in
      let d := det3 s4 s3 s2 s3 s2 s1 s2 s1 n in
      Ok [(det3 t2 s3 s2 t1 s2 s1 t0 s1 n / d)%float;
          (det3 s4 t2 s2 s3 t1 s1 s2 t0 n / d)%float;
          (det3 s4 s3 t2 s3 s2 t1 s2 s1 t0 / d)%float]
  | _ => Raise LinAlgError
  end.

Definition demo_csv_value (col : list cell) (c : cell) : string :=
  match c with
  | CFloat f => demo_float_text f
  | CInt z => demo_int_text z
  | CBool b => if b then "True" else "False"
  | CStr s => s
  | CTime t => demo_int_text t
  | CNone | CNaT => EmptyString
  end.

Definition demo_frame_text (df : DataFrame) : string :=
  join " "%char (columns df) +:+ " / " +:+ demo_int_text (Z.of_nat (length (rows df))).

Definition demo_libs : Libs := {|
  pd_parse_number := demo_parse_float;
  py_float := demo_parse_float;
  float_of_int := demo_float_of_int;
  to_datetime_value := demo_to_datetime;
  date2num := demo_date2num;
  lstsq_solve := demo_lstsq;
  csv_value := demo_csv_value;
  frame_repr := demo_frame_text;
  frame_to_string := demo_frame_text;
  render_figure := fun _ fit_option => Ok ("figure: " +:+ fit_option);
  infers_datetime64 := fun _ => true;
  excel_open_error := fun _ => BadZipFile
|}.

Definition day : Z := 86400000000000.

(** A sheet with five good rows on the line [10 + 2 * days], and three rows
    to drop: a header row, a row whose Celsius cell is empty and a row whose
    Celsius cell is the text [N/A]. *)
Definition demo_sheet : list (cell * cell * cell) :=
  [ (CStr "Time", CStr "Celsius", CStr "Fahrenheit");
    (CTime 0, CFloat 10, CFloat 50);
    (CTime day, CInt 12, CFloat 53.5);
    (CTime (2 * day), CNone, CFloat 57.25);
    (CTime (2 * day), CStr "14", CFloat 57.25);
    (CTime (3 * day), CStr "N/A", CFloat 60.75);
    (CTime (3 * day), CFloat 16, CStr "60.75 F");
    (CTime (4 * day), CFloat 18, CFloat 64.5) ].

Definition demo_world (lines : list string) (sheet : list (cell * cell * cell)) : world :=
  mkWorld lines [] (<["run/data.xlsx" := Workbook sheet]> ∅).

(** The observations that [read_data] makes of [demo_sheet]. *)
Definition demo_obs : list observation :=
  [ (0%Z, 10%float, CFloat 50);
    (day, 12%float, CFloat 53.5);
    ((2 * day)%Z, 14%float, CFloat 57.25);
    ((3 * day)%Z, 16%float, CStr "60.75 F");
    ((4 * day)%Z, 18%float, CFloat 64.5) ].

(** The coefficients the demo solver finds for them, degree 1. *)
Definition demo_linear_coeffs : list float :=
  Eval vm_compute in
    match polyfit demo_libs (map demo_date2num (map obs_time demo_obs))
            (map obs_celsius demo_obs) 1 with
    | Ok coeffs => coeffs
    | Raise _ => []
    end.





(** A world whose input workbook has the name of an output file of the
    run. *)
Definition demo_world_input_named_as_output : world :=
  mkWorld ["run/linear_predictions.csv"; "linear"] []
    (<["run/linear_predictions.csv" := Workbook demo_sheet]> ∅).

(** The last character of a text, if it has one. *)
Fixpoint last_char (s : string) : option ascii :=
  match s with
  | EmptyString => None
  | String c EmptyString => Some c
  | String _ r => last_char r
  end.

(** A library whose figures never render, and one whose solver never
    returns. *)
Definition demo_libs_no_figure : Libs := {|
  pd_parse_number := demo_parse_float;
  py_float := demo_parse_float;
  float_of_int := demo_float_of_int;
  to_datetime_value := demo_to_datetime;
  date2num := demo_date2num;
  lstsq_solve := demo_lstsq;
  csv_value := demo_csv_value;
  frame_repr := demo_frame_text;
  frame_to_string := demo_frame_text;
  render_figure := fun _ _ => Raise ValueError;
  infers_datetime64 := fun _ => true;
  excel_open_error := fun _ => BadZipFile
|}.

Definition demo_libs_no_solution : Libs := {|
  pd_parse_number := demo_parse_float;
  py_float := demo_parse_float;
  float_of_int := demo_float_of_int;
  to_datetime_value := demo_to_datetime;
  date2num := demo_date2num;
  lstsq_solve := fun _ _ _ => Raise LinAlgError;
  csv_value := demo_csv_value;
  frame_repr := demo_frame_text;
  frame_to_string := demo_frame_text;
  render_figure := fun _ fit_option => Ok ("figure: " +:+ fit_option);
  infers_datetime64 := fun _ => true;
  excel_open_error := fun _ => BadZipFile
|}.





(** The rows of a fitted table whose Celsius predictions were replaced by
    those of [params], the Fahrenheit predictions still those of [old]. *)
Definition refitted_rows (L : Libs) (obs : list observation) (params old : list float)
  : list (list cell) :=
  map (fun o => obs_row o ++ [CFloat (prediction L params o);
                              CFloat (celsius_to_fahrenheit (prediction L old o))])
    obs.

(** A world whose only file is a text file. *)
Definition demo_world_text_file : world :=
  mkWorld [] [] (<["notes.txt" := TextFile "10,12,14"]> ∅).

(** A sheet with good time stamps and Celsius values and an empty third
    column. *)
Definition demo_sheet_no_fahrenheit : list (cell * cell * cell) :=
  [ (CTime 0, CFloat 10, CNone);
    (CTime day, CFloat 12, CFloat nan);
    (CTime (2 * day), CFloat 14, CNone) ].

(** * What a run depends on, and what it changes *)

(** Files written, in order. *)
Definition apply_writes (f : gmap string file) (ws : list (string * file))
  : gmap string file :=
  fold_left (fun m kv => <[kv.1 := kv.2]> m) ws f.

(** The content of [p] after the writes, given its content before. *)
Fixpoint lookup_after (p : string) (ws : list (string * file)) (o : option file)
  : option file :=
  match ws with
  | [] => o
  | kv :: ws' => lookup_after p ws' (if decide (kv.1 = p) then Some kv.2 else o)
  end.

(** The computation [m] reads the console input and at most the file [p]:
    its result, the input it leaves, the lines it prints and the files it
    writes are the same in any two worlds that agree on these. *)
Definition determined_by (p : string) {A} (m : M A) : Prop :=
  forall (sin : list string) (o : option file),
  exists r rest out ws,
  forall w, stdin w = sin -> fs w !! p = o ->
    m w = (r, mkWorld rest (stdout w ++ out) (apply_writes (fs w) ws)).

(** * Properties *)

(** ** Results and lists *)

Lemma result_map_map {A B C} (f : B -> result C) (h : A -> B) (l : list A) :
  result_map f (map h l) = result_map (fun a => f (h a)) l.
Proof.
  induction l as [|a l IH]; simpl; [reflexivity|].
  now rewrite IH.
Qed.

Lemma result_map_total {A B} (g : A -> B) (l : list A) :
  result_map (fun a => Ok (g a)) l = Ok (map g l).
Proof.
  induction l as [|a l IH]; simpl; [reflexivity|].
  now rewrite IH.
Qed.

Lemma result_map_length {A B} (f : A -> result B) (l : list A) (bs : list B) :
  result_map f l = Ok bs -> length bs = length l.
Proof.
  revert bs. induction l as [|a l IH]; simpl; intros bs E.
  - now inversion E.
  - destruct (f a); [|discriminate]. simpl in E.
    destruct (result_map f l); [|discriminate]. simpl in E.
    inversion E; subst. simpl. f_equal. now apply IH.
Qed.

Lemma zip_with_map_same {A B C D} (h : B -> C -> D) (f : A -> B) (g : A -> C)
    (l : list A) :
  zip_with h (map f l) (map g l) = map (fun a => h (f a) (g a)) l.
Proof.
  induction l as [|a l IH]; simpl; [reflexivity|].
  now rewrite IH.
Qed.

(** ** Stepping through the effect monad *)

Lemma bind_ret {A B} (a : A) (k : A -> M B) w : bind (ret a) k w = k a w.
Proof. reflexivity. Qed.

Lemma bind_lift_ok {A B} (a : A) (k : A -> M B) w :
  bind (lift (Ok a)) k w = k a w.
Proof. reflexivity. Qed.

Lemma bind_lift_raise {A B} (e : exn) (k : A -> M B) w :
  bind (lift (Raise e)) k w = (Raise e, w).
Proof. reflexivity. Qed.

Lemma bind_raise {A B} (e : exn) (k : A -> M B) w :
  bind (raise e) k w = (Raise e, w).
Proof. reflexivity. Qed.

Lemma bind_print {B} (s : string) (k : unit -> M B) w :
  bind (print s) k w = k tt (mkWorld (stdin w) (stdout w ++ [s]) (fs w)).
Proof. reflexivity. Qed.

Lemma bind_write_file {B} path f (k : unit -> M B) w :
  bind (write_file path f) k w
  = k tt (mkWorld (stdin w) (stdout w) (<[path := f]> (fs w))).
Proof. reflexivity. Qed.

Lemma bind_bind {A B C} (m : M A) (k : A -> M B) (h : B -> M C) w :
  bind (bind m k) h w = bind m (fun a => bind (k a) h) w.
Proof.
  unfold bind. destruct (m w) as [[a|e] w']; reflexivity.
Qed.

Ltac mstep :=
  first [ rewrite bind_lift_ok | rewrite bind_lift_raise | rewrite bind_ret
        | rewrite bind_print | rewrite bind_write_file | rewrite bind_raise ];
  cbn [stdin stdout fs].

(** ** Cleaned tables *)

Section Facts.

Variable L : Libs.

Lemma get_col_times obs :
  get_col (frame_of_obs obs) col_TimeStamp = Ok (map (fun o => CTime (obs_time o)) obs).
Proof.
  unfold get_col. simpl. f_equal. rewrite map_map. reflexivity.
Qed.

Lemma get_col_celsius obs :
  get_col (frame_of_obs obs) col_TempC = Ok (map (fun o => CFloat (obs_celsius o)) obs).
Proof.
  unfold get_col. simpl. f_equal. rewrite map_map. reflexivity.
Qed.

Lemma datetime64_values_times {A} (t : A -> Z) (l : list A) :
  datetime64_values (map (fun o => CTime (t o)) l) = Ok (map t l).
Proof.
  unfold datetime64_values. rewrite result_map_map. apply result_map_total.
Qed.

Lemma float64_values_floats {A} (c : A -> float) (l : list A) :
  float64_values (map (fun o => CFloat (c o)) l) = Ok (map c l).
Proof.
  unfold float64_values. rewrite result_map_map. apply result_map_total.
Qed.

Lemma set_col_prediction_c obs params :
  set_col (frame_of_obs obs) col_PredC
    (map CFloat (map (polyval params) (x_num_of L obs)))
  = Ok (mkDataFrame [col_TimeStamp; col_TempC; col_TempF; col_PredC]
          (map (fun o => obs_row o ++ [CFloat (prediction L params o)]) obs)).
Proof.
  unfold set_col, x_num_of. simpl rows.
  rewrite !length_map, Nat.eqb_refl. simpl.
  do 2 f_equal. rewrite !map_map.
  exact (zip_with_map_same (fun r v => r ++ [v]) obs_row _ obs).
Qed.

Lemma get_col_prediction_c obs params :
  get_col (mkDataFrame [col_TimeStamp; col_TempC; col_TempF; col_PredC]
             (map (fun o => obs_row o ++ [CFloat (prediction L params o)]) obs))
    col_PredC
  = Ok (map (fun o => CFloat (prediction L params o)) obs).
Proof.
  unfold get_col. simpl. f_equal. rewrite map_map. reflexivity.
Qed.

Lemma set_col_prediction_f obs params :
  set_col (mkDataFrame [col_TimeStamp; col_TempC; col_TempF; col_PredC]
             (map (fun o => obs_row o ++ [CFloat (prediction L params o)]) obs))
    col_PredF
    (map CFloat (map celsius_to_fahrenheit (map (prediction L params) obs)))
  = Ok (augmented L obs params).
Proof.
  unfold set_col, augmented. simpl rows.
  rewrite !length_map, Nat.eqb_refl. simpl.
  do 2 f_equal. rewrite !map_map.
  rewrite (zip_with_map_same (fun r v => r ++ [v])).
  apply map_ext. intros o. unfold augmented_row.
  reflexivity.
Qed.

(** [fit_data] on a cleaned table, case by case. *)
Lemma fit_data_cleaned obs fit_option w :
  fit_data L (frame_of_obs obs) fit_option w =
  match fit_mode fit_option with
  | None => (Raise NotImplementedError, w)
  | Some (deg, labels, line) =>
      match polyfit L (x_num_of L obs) (map obs_celsius obs) deg with
      | Raise e => (Raise e, w)
      | Ok params =>
          let w' := mkWorld (stdin w) (stdout w ++ [line]) (fs w) in
          if (length params =? length labels)%nat
          then (Ok (augmented L obs params, params_frame labels params), w')
          else (Raise ValueError, w')
      end
  end.
Proof.
  unfold fit_data, fit_mode.
  rewrite get_col_times, get_col_celsius. cbn [result_bind].
  rewrite datetime64_values_times, float64_values_floats.
  do 2 mstep. rewrite map_map. fold (x_num_of L obs).
  destruct (String.eqb fit_option "linear");
    [|destruct (String.eqb fit_option "quadratic"); [|reflexivity]];
    rewrite bind_bind;
    (destruct (polyfit L (x_num_of L obs) (map obs_celsius obs) _) as [params|e];
       [|reflexivity]);
    mstep; rewrite bind_bind; do 2 mstep;
    rewrite set_col_prediction_c; mstep;
    rewrite get_col_prediction_c; cbn [result_bind];
    rewrite (float64_values_floats (prediction L params)); mstep;
    rewrite set_col_prediction_f; mstep;
    unfold frame_of_row; rewrite length_map;
    (destruct (length params =? _)%nat; reflexivity).
Qed.

(** ** read_data, step by step *)

Lemma result_map_then {A B C} (f : A -> result B) (g : B -> C) (l : list A) :
  result_map (fun a => result_bind (f a) (fun b => Ok (g b))) l
  = result_bind (result_map f l) (fun bs => Ok (map g bs)).
Proof.
  induction l as [|a l IH]; simpl; [reflexivity|].
  destruct (f a) as [b|e]; simpl; [|reflexivity].
  rewrite IH. destruct (result_map f l); reflexivity.
Qed.

Lemma to_datetime_values col :
  to_datetime L col
  = result_bind (datetime_values L col) (fun ts => Ok (map CTime ts)).
Proof. apply result_map_then. Qed.

Lemma astype_float64_values col :
  astype_float64 L col
  = result_bind (celsius_values L col) (fun cs => Ok (map CFloat cs)).
Proof. apply result_map_then. Qed.

Lemma read_excel_workbook path w sheet :
  fs w !! path = Some (Workbook sheet) -> sheet <> [] ->
  read_excel L path w
  = (Ok (mkDataFrame [col_TimeStamp; col_TempC; col_TempF] (map sheet_row sheet)), w).
Proof.
  intros E N. unfold read_excel. rewrite E.
  destruct sheet as [|r sheet]; [contradiction|]. do 3 f_equal.
  apply (map_ext _ sheet_row). now intros [[t c] f].
Qed.

Lemma read_data_empty_sheet path w :
  fs w !! path = Some (Workbook []) -> read_data L path w = (Raise KeyError, w).
Proof.
  intros E. unfold read_data, bind at 1, read_excel. now rewrite E.
Qed.

Lemma celsius_is_datetime64_sheet sheet :
  celsius_is_datetime64 L
    (mkDataFrame [col_TimeStamp; col_TempC; col_TempF] (map sheet_row sheet))
  = datetime64_column L (map (fun r => r.1.2) sheet).
Proof.
  unfold celsius_is_datetime64, get_col. cbn [rows columns].
  change (col_index col_TempC [col_TimeStamp; col_TempC; col_TempF]) with (Some 1%nat).
  cbv iota beta. now rewrite map_map.
Qed.

Lemma filter_sheet_rows (p : cell * cell * cell -> bool) (q : list cell -> bool) sheet :
  (forall r, q (sheet_row r) = p r) ->
  List.filter q (map sheet_row sheet) = map sheet_row (List.filter p sheet).
Proof.
  intros E. induction sheet as [|r sheet IH]; simpl; [reflexivity|].
  rewrite E. destruct (p r); simpl; now rewrite IH.
Qed.

Lemma select_mask_rows {A B} (f : A -> B) (p : A -> bool) (l : list A) :
  select_mask (map f l) (map p l) = map f (List.filter p l).
Proof.
  induction l as [|a l IH]; simpl; [reflexivity|].
  destruct (p a); simpl; now rewrite IH.
Qed.

Lemma filter_filter_and {A} (p q : A -> bool) (l : list A) :
  List.filter q (List.filter p l) = List.filter (fun a => p a && q a) l.
Proof.
  induction l as [|a l IH]; simpl; [reflexivity|].
  destruct (p a); simpl; [destruct (q a)|]; now rewrite IH.
Qed.

Lemma celsius_after_stamps kept (ts : list Z) :
  length ts = length kept ->
  map (fun r => nth 1 r CNone)
    (zip_with (fun r v => <[0%nat:=v]> r) (map sheet_row kept) (map CTime ts))
  = map (fun r => r.1.2) kept.
Proof.
  revert ts. induction kept as [|r kept IH]; intros [|t ts] E; try discriminate;
    simpl; [reflexivity|].
  f_equal. apply IH. now inversion E.
Qed.

Lemma rows_after_conversions kept (ts : list Z) (cs : list float) :
  length ts = length kept -> length cs = length kept ->
  zip_with (fun r v => <[1%nat:=v]> r)
    (zip_with (fun r v => <[0%nat:=v]> r) (map sheet_row kept) (map CTime ts))
    (map CFloat cs)
  = map obs_row (observations ts cs kept).
Proof.
  revert ts cs.
  induction kept as [|r kept IH]; intros [|t ts] [|c cs] Et Ec; try discriminate;
    simpl; [reflexivity|].
  f_equal. apply IH; [now inversion Et | now inversion Ec].
Qed.

(** [read_data] on a workbook, case by case. On a sheet with rows whose
    Celsius column is no datetime64 column, the rows that survive the two
    filters are converted column by column, time stamps first. *)
Lemma read_data_workbook path w sheet :
  fs w !! path = Some (Workbook sheet) -> sheet <> [] ->
  datetime64_column L (map (fun r => r.1.2) sheet) = false ->
  read_data L path w =
  let kept := kept_rows L sheet in
  match datetime_values L (map (fun r => r.1.1) kept) with
  | Raise e => (Raise e, w)
  | Ok stamps =>
      match celsius_values L (map (fun r => r.1.2) kept) with
      | Raise e => (Raise e, w)
      | Ok celsius =>
          let data := frame_of_obs (observations stamps celsius kept) in
          (Ok data,
           mkWorld (stdin w)
             (stdout w ++ [String newline "Data extracted:"; frame_repr L data])
             (fs w))
      end
  end.
Proof.
  intros E N D. unfold read_data.
  unfold bind at 1. rewrite (read_excel_workbook _ _ _ E N).
  rewrite celsius_is_datetime64_sheet, D.
  unfold dropna_any, to_numeric_notnull. cbn [rows columns].
  rewrite (filter_sheet_rows complete_row);
    [|intros [[t c] f]; unfold complete_row; simpl;
      now rewrite andb_true_r, andb_assoc].
  unfold get_col at 1. cbn [rows columns].
  change (col_index col_TempC [col_TimeStamp; col_TempC; col_TempF]) with (Some 1%nat).
  cbv iota beta. mstep.
  rewrite !map_map.
  change (fun x : cell * cell * cell => notna (to_numeric_coerce L (nth 1 (sheet_row x) CNone)))
    with (fun x : cell * cell * cell => notna (to_numeric_coerce L x.1.2)).
  rewrite select_mask_rows, filter_filter_and.
  change (List.filter
            (fun a => complete_row a && notna (to_numeric_coerce L a.1.2)) sheet)
    with (kept_rows L sheet).
  set (kept := kept_rows L sheet).
  unfold get_col at 1. cbn [rows columns].
  change (col_index col_TimeStamp [col_TimeStamp; col_TempC; col_TempF]) with (Some 0%nat).
  cbv iota beta. mstep. rewrite map_map.
  change (fun x : cell * cell * cell => nth 0 (sheet_row x) CNone)
    with (fun x : cell * cell * cell => x.1.1).
  rewrite to_datetime_values.
  destruct (datetime_values L (map (fun r => r.1.1) kept)) as [ts|e] eqn:Ets;
    [|reflexivity].
  pose proof (result_map_length _ _ _ Ets) as Lts. rewrite length_map in Lts.
  cbn [result_bind]. mstep.
  unfold set_col at 1. cbn [rows columns].
  rewrite !length_map, Lts, Nat.eqb_refl. cbn [negb].
  change (col_index col_TimeStamp [col_TimeStamp; col_TempC; col_TempF]) with (Some 0%nat).
  cbv iota beta. mstep.
  unfold get_col at 1. cbn [rows columns].
  change (col_index col_TempC [col_TimeStamp; col_TempC; col_TempF]) with (Some 1%nat).
  cbv iota beta. mstep.
  unfold astype_float64_of.
  rewrite (celsius_after_stamps kept ts Lts), astype_float64_values.
  destruct (celsius_values L (map (fun r => r.1.2) kept)) as [cs|e] eqn:Ecs;
    [|reflexivity].
  pose proof (result_map_length _ _ _ Ecs) as Lcs. rewrite length_map in Lcs.
  cbn [result_bind]. mstep.
  unfold set_col at 1. cbn [rows columns].
  rewrite length_map, length_zip_with, !length_map, Lts, Lcs, Nat.min_id, Nat.eqb_refl.
  cbn [negb].
  change (col_index col_TempC [col_TimeStamp; col_TempC; col_TempF]) with (Some 1%nat).
  cbv iota beta. mstep.
  rewrite (rows_after_conversions kept ts cs Lts Lcs).
  do 2 mstep. unfold ret.
  rewrite <- app_assoc. reflexivity.
Qed.

(** On a sheet whose Celsius column is a datetime64 column, no row is taken
    out by the number filter and the cast to float64 is refused, once the
    time stamps of the complete rows are converted. *)
Lemma read_data_dated path w sheet :
  fs w !! path = Some (Workbook sheet) ->
  datetime64_column L (map (fun r => r.1.2) sheet) = true ->
  read_data L path w =
  match datetime_values L (map (fun r => r.1.1) (List.filter complete_row sheet)) with
  | Raise e => (Raise e, w)
  | Ok _ => (Raise TypeError, w)
  end.
Proof.
  intros E D.
  assert (N : sheet <> []) by (intros ->; discriminate D).
  unfold read_data.
  unfold bind at 1. rewrite (read_excel_workbook _ _ _ E N).
  rewrite celsius_is_datetime64_sheet, D.
  unfold dropna_any, to_numeric_notnull. cbn [rows columns].
  rewrite (filter_sheet_rows complete_row);
    [|intros [[t c] f]; unfold complete_row; simpl;
      now rewrite andb_true_r, andb_assoc].
  unfold get_col at 1. cbn [rows columns].
  change (col_index col_TempC [col_TimeStamp; col_TempC; col_TempF]) with (Some 1%nat).
  cbv iota beta. mstep.
  rewrite !map_map.
  change (fun x : cell * cell * cell => notna (nth 1 (sheet_row x) CNone))
    with (fun x : cell * cell * cell => notna x.1.2).
  rewrite select_mask_rows, filter_filter_and.
  rewrite (List.filter_ext (fun a => complete_row a && notna a.1.2) complete_row);
    [|intros [[t c] f]; unfold complete_row; simpl;
      destruct (notna t), (notna c), (notna f); reflexivity].
  set (kept := List.filter complete_row sheet).
  unfold get_col at 1. cbn [rows columns].
  change (col_index col_TimeStamp [col_TimeStamp; col_TempC; col_TempF]) with (Some 0%nat).
  cbv iota beta. mstep. rewrite map_map.
  change (fun x : cell * cell * cell => nth 0 (sheet_row x) CNone)
    with (fun x : cell * cell * cell => x.1.1).
  rewrite to_datetime_values.
  destruct (datetime_values L (map (fun r => r.1.1) kept)) as [ts|e] eqn:Ets;
    [|reflexivity].
  pose proof (result_map_length _ _ _ Ets) as Lts. rewrite length_map in Lts.
  cbn [result_bind]. mstep.
  unfold set_col at 1. cbn [rows columns].
  rewrite !length_map, Lts, Nat.eqb_refl. cbn [negb].
  change (col_index col_TimeStamp [col_TimeStamp; col_TempC; col_TempF]) with (Some 0%nat).
  cbv iota beta. mstep.
  unfold get_col at 1. cbn [rows columns].
  change (col_index col_TempC [col_TimeStamp; col_TempC; col_TempF]) with (Some 1%nat).
  cbv iota beta. mstep.
  unfold astype_float64_of. now mstep.
Qed.

(** Every outcome of [read_data] on a workbook. *)
Lemma read_data_sheet path w sheet :
  fs w !! path = Some (Workbook sheet) ->
  read_data L path w = loaded L sheet w.
Proof.
  intros E. unfold loaded. destruct sheet as [|r sheet].
  - now apply read_data_empty_sheet.
  - destruct (datetime64_column L (map (fun r => r.1.2) (r :: sheet))) eqn:D.
    + now apply read_data_dated.
    + now apply read_data_workbook.
Qed.

(** ** get_user_input *)

Lemma valid_option_iff fit_option :
  valid_option fit_option = true
  <-> fit_option = "linear" \/ fit_option = "quadratic".
Proof.
  unfold valid_option. rewrite orb_true_iff, !String.eqb_eq. reflexivity.
Qed.

Lemma ask_fit_option_accepts rejected accepted rest out f :
  Forall (fun l => valid_option (lower l) = false) rejected ->
  valid_option (lower accepted) = true ->
  ask_fit_option (rejected ++ accepted :: rest)
    (mkWorld (rejected ++ accepted :: rest) out f)
  = (Ok (lower accepted),
     mkWorld rest (out ++ rejection_lines rejected ++ [prompt_option]) f).
Proof.
  intros Hrej Hacc. revert out.
  induction Hrej as [|l rejected Hl _ IH]; intros out; simpl.
  - unfold bind, input. simpl. rewrite Hacc. reflexivity.
  - unfold bind at 1, input at 1. simpl. rewrite Hl.
    rewrite bind_print. simpl. rewrite IH.
    now rewrite <- !app_assoc.
Qed.

Lemma ask_fit_option_eof lines out f :
  Forall (fun l => valid_option (lower l) = false) lines ->
  ask_fit_option lines (mkWorld lines out f)
  = (Raise EOFError, mkWorld [] (out ++ rejection_lines lines ++ [prompt_option]) f).
Proof.
  intros Hrej. revert out.
  induction Hrej as [|l lines Hl _ IH]; intros out; simpl.
  - reflexivity.
  - unfold bind at 1, input at 1. simpl. rewrite Hl.
    rewrite bind_print. simpl. rewrite IH.
    now rewrite <- !app_assoc.
Qed.

(** Whatever the input, a mode that the loop returns is one of the two. *)
Lemma ask_fit_option_valid lines out f fit_option w' :
  ask_fit_option lines (mkWorld lines out f) = (Ok fit_option, w') ->
  valid_option fit_option = true.
Proof.
  revert out. induction lines as [|l lines IH]; intros out; simpl.
  - discriminate.
  - unfold bind at 1, input at 1. simpl.
    destruct (valid_option (lower l)) eqn:E.
    + unfold ret. intros H. inversion H; subst. exact E.
    + rewrite bind_print. simpl. apply IH.
Qed.

Lemma get_user_input_valid w file_path fit_option w' :
  get_user_input w = (Ok (file_path, fit_option), w') ->
  valid_option fit_option = true.
Proof.
  unfold get_user_input. unfold bind at 1, input at 1.
  destruct (stdin w) as [|p lines]; [discriminate|].
  unfold bind at 1. simpl.
  destruct (ask_fit_option lines _) as [[m|e] w1] eqn:E; [|discriminate].
  unfold ret. intros H. inversion H; subst.
  eapply ask_fit_option_valid, E.
Qed.

(** ** fit_data on a cleaned table *)

Lemma fit_mode_cases fit_option deg labels line :
  fit_mode fit_option = Some (deg, labels, line) ->
  fit_option = "linear" /\ deg = 1%nat /\ labels = ["a"; "b"]
  \/ fit_option = "quadratic" /\ deg = 2%nat /\ labels = ["a"; "b"; "c"].
Proof.
  unfold fit_mode.
  destruct (String.eqb fit_option "linear") eqn:E1.
  - apply String.eqb_eq in E1. intros H. inversion H. now left.
  - destruct (String.eqb fit_option "quadratic") eqn:E2; [|discriminate].
    apply String.eqb_eq in E2. intros H. inversion H. now right.
Qed.

Lemma fit_mode_none fit_option :
  fit_option <> "linear" -> fit_option <> "quadratic" -> fit_mode fit_option = None.
Proof.
  intros N1 N2. unfold fit_mode.
  apply String.eqb_neq in N1, N2. now rewrite N1, N2.
Qed.

(** When [fit_data] returns on a cleaned table, this is what it did. *)
Lemma fit_data_cleaned_ok obs fit_option w data params w' :
  fit_data L (frame_of_obs obs) fit_option w = (Ok (data, params), w') ->
  exists deg labels line coeffs,
    fit_mode fit_option = Some (deg, labels, line)
    /\ polyfit L (x_num_of L obs) (map obs_celsius obs) deg = Ok coeffs
    /\ length coeffs = length labels
    /\ data = augmented L obs coeffs
    /\ params = params_frame labels coeffs
    /\ w' = mkWorld (stdin w) (stdout w ++ [line]) (fs w).
Proof.
  rewrite fit_data_cleaned.
  destruct (fit_mode fit_option) as [[[deg labels] line]|]; [|discriminate].
  destruct (polyfit L (x_num_of L obs) (map obs_celsius obs) deg) as [coeffs|e] eqn:Ep;
    [|discriminate].
  cbv zeta. destruct (length coeffs =? length labels)%nat eqn:E; [|discriminate].
  apply Nat.eqb_eq in E. intros H. inversion H; subst.
  exists deg, labels, line, coeffs. repeat split; assumption.
Qed.

Lemma get_col_augmented_c obs coeffs :
  get_col (augmented L obs coeffs) col_PredC
  = Ok (map (fun o => CFloat (prediction L coeffs o)) obs).
Proof.
  unfold get_col. simpl. f_equal. rewrite map_map. reflexivity.
Qed.

Lemma get_col_augmented_f obs coeffs :
  get_col (augmented L obs coeffs) col_PredF
  = Ok (map (fun o => CFloat (celsius_to_fahrenheit (prediction L coeffs o))) obs).
Proof.
  unfold get_col. simpl. f_equal. rewrite map_map. reflexivity.
Qed.

Lemma get_col_augmented_original obs coeffs name :
  In name [col_TimeStamp; col_TempC; col_TempF] ->
  get_col (augmented L obs coeffs) name = get_col (frame_of_obs obs) name.
Proof.
  intros [<-|[<-|[<-|[]]]]; unfold get_col; simpl; f_equal; now rewrite !map_map.
Qed.



(** ** Footprints *)

Lemma lookup_apply_writes p ws (f : gmap string file) :
  apply_writes f ws !! p = lookup_after p ws (f !! p).
Proof.
  revert f. induction ws as [|[k v] ws IH]; intros f; simpl; [reflexivity|].
  unfold apply_writes in *. simpl. rewrite IH, lookup_insert. reflexivity.
Qed.

Lemma apply_writes_app (f : gmap string file) ws ws' :
  apply_writes (apply_writes f ws) ws' = apply_writes f (ws ++ ws').
Proof. unfold apply_writes. now rewrite fold_left_app. Qed.

Lemma lookup_after_cases p ws :
  (forall o, lookup_after p ws o = o)
  \/ (exists v, forall o, lookup_after p ws o = Some v).
Proof.
  induction ws as [|[k v] ws IH]; simpl; [now left|].
  destruct IH as [IH|[v' IH]].
  - destruct (decide (k = p)); [right; exists v|left]; intros o; apply IH.
  - right. exists v'. intros o. apply IH.
Qed.

(** Writing the same files a second time changes nothing. *)
Lemma apply_writes_twice (f : gmap string file) ws :
  apply_writes (apply_writes f ws) ws = apply_writes f ws.
Proof.
  apply map_eq. intros p. rewrite !lookup_apply_writes.
  destruct (lookup_after_cases p ws) as [H|[v H]]; now rewrite !H.
Qed.

Lemma determined_ret p {A} (a : A) : determined_by p (ret a).
Proof.
  intros sin o. exists (Ok a), sin, [], []. intros [si so f] <- _.
  unfold ret. simpl. now rewrite app_nil_r.
Qed.

Lemma determined_lift p {A} (r : result A) : determined_by p (lift r).
Proof.
  intros sin o. exists r, sin, [], []. intros [si so f] <- _.
  unfold lift. simpl. now rewrite app_nil_r.
Qed.

Lemma determined_raise p {A} (e : exn) : determined_by p (@raise A e).
Proof. apply (determined_lift p (Raise e)). Qed.

Lemma determined_print p s : determined_by p (print s).
Proof.
  intros sin o. exists (Ok tt), sin, [s], []. now intros [si so f] <- _.
Qed.

Lemma determined_input p s : determined_by p (input s).
Proof.
  intros [|l ls] o.
  - exists (Raise EOFError), [], [s], []. intros [si so f] E _.
    simpl in E. subst. reflexivity.
  - exists (Ok l), ls, [s], []. intros [si so f] E _.
    simpl in E. subst. reflexivity.
Qed.

Lemma determined_write_file p path f : determined_by p (write_file path f).
Proof.
  intros sin o. exists (Ok tt), sin, [], [(path, f)]. intros [si so g] <- _.
  unfold write_file. simpl. now rewrite app_nil_r.
Qed.

Lemma determined_read_excel p : determined_by p (read_excel L p).
Proof.
  intros sin o.
  exists (match o with
          | None => Raise FileNotFoundError
          | Some (Workbook []) => Ok (mkDataFrame [] [])
          | Some (Workbook sheet) =>
              Ok (mkDataFrame [col_TimeStamp; col_TempC; col_TempF]
                    (map (fun '(t, c, f) => [t; c; f]) sheet))
          | Some (TextFile text) =>
              Raise (if has_excel_signature text then excel_open_error L text
                     else ValueError)
          | Some (ImageFile _) => Raise ValueError
          end), sin, [], [].
  intros [si so g] <- E. unfold read_excel. simpl in *. rewrite E, app_nil_r.
  destruct o as [[[|r sheet]|text|bytes]|]; reflexivity.
Qed.

Lemma determined_bind p {A B} (m : M A) (k : A -> M B) :
  determined_by p m -> (forall a, determined_by p (k a)) ->
  determined_by p (bind m k).
Proof.
  intros Hm Hk sin o.
  destruct (Hm sin o) as (r & rest & out & ws & Em).
  destruct r as [a|e].
  - destruct (Hk a rest (lookup_after p ws o)) as (r2 & rest2 & out2 & ws2 & Ek).
    exists r2, rest2, (out ++ out2), (ws ++ ws2). intros w Hin Hfs.
    unfold bind. rewrite (Em w Hin Hfs).
    rewrite Ek; simpl; [|reflexivity|now rewrite lookup_apply_writes, Hfs].
    now rewrite app_assoc, apply_writes_app.
  - exists (Raise e), rest, out, ws. intros w Hin Hfs.
    unfold bind. now rewrite (Em w Hin Hfs).
Qed.

Lemma determined_ask_fit_option p :
  determined_by p (fun w => ask_fit_option (stdin w) w).
Proof.
  intros sin o. induction sin as [|l ls IH].
  - exists (Raise EOFError), [], [prompt_option], [].
    intros [si so f] E _. simpl in E. subst. reflexivity.
  - destruct (valid_option (lower l)) eqn:V.
    + exists (Ok (lower l)), ls, [prompt_option], [].
      intros [si so f] E _. simpl in E. subst. simpl.
      unfold bind, input. simpl. now rewrite V.
    + destruct IH as (r & rest & out & ws & IH).
      exists r, rest, ([prompt_option; invalid_option (lower l)] ++ out), ws.
      intros [si so f] E Hfs. simpl in E. subst si. simpl.
      unfold bind at 1, input at 1. simpl. rewrite V, bind_print. simpl.
      pose proof (IH (mkWorld ls ((so ++ [prompt_option]) ++ [invalid_option (lower l)]) f)
                    eq_refl Hfs) as E.
      simpl in E. rewrite E. now rewrite <- !app_assoc.
Qed.

Lemma determined_ext p {A} (m m' : M A) :
  (forall w, m w = m' w) -> determined_by p m -> determined_by p m'.
Proof.
  intros E Hm sin o. destruct (Hm sin o) as (r & rest & out & ws & Em).
  exists r, rest, out, ws. intros w Hin Hfs. rewrite <- E. now apply Em.
Qed.

Lemma determined_bind_ret p {A B} (a : A) (k : A -> M B) :
  determined_by p (k a) -> determined_by p (bind (ret a) k).
Proof. apply determined_ext. reflexivity. Qed.

Ltac determined :=
  repeat first
    [ apply determined_ret | apply determined_lift | apply determined_raise
    | apply determined_print | apply determined_input
    | apply determined_write_file | apply determined_read_excel
    | apply determined_ask_fit_option
    | apply determined_bind_ret
    | apply determined_bind; [|intros ?]
    | match goal with
      | |- determined_by _ (match ?x with _ => _ end) => destruct x
      end
    | progress cbv zeta ].

Lemma determined_read_data p : determined_by p (read_data L p).
Proof. unfold read_data. determined. Qed.

Lemma determined_fit_data p data fit_option :
  determined_by p (fit_data L data fit_option).
Proof. unfold fit_data. determined. Qed.

Lemma determined_save_fit_params p params fit_option folder :
  determined_by p (save_fit_params L params fit_option folder).
Proof. unfold save_fit_params, to_csv. determined. Qed.

Lemma determined_save_predictions p data fit_option folder :
  determined_by p (save_predictions L data fit_option folder).
Proof. unfold save_predictions, to_csv. determined. Qed.

Lemma determined_plot_data p data fit_option folder :
  determined_by p (plot_data L data fit_option folder).
Proof. unfold plot_data. determined. Qed.

(** A run of [main] is determined by the console input and by the content
    of the file named on its first line. *)
Lemma main_determined p ls o :
  exists r rest out ws,
  forall w, stdin w = p :: ls -> fs w !! p = o ->
    main L w = (r, mkWorld rest (stdout w ++ out) (apply_writes (fs w) ws)).
Proof.
  pose (after_input := fun '(data_file_path, fit_option) =>
    let data_folder_path := dirname data_file_path in
    do data <- read_data L data_file_path;
    do '(data, params) <- fit_data L data fit_option;
    run save_fit_params L params fit_option data_folder_path;
    run save_predictions L data fit_option data_folder_path;
    plot_data L data fit_option data_folder_path).
  assert (determined_by p
            (bind (fun w => ask_fit_option (stdin w) w)
               (fun fit_option => bind (ret (p, fit_option)) after_input))) as D.
  { apply determined_bind; [apply determined_ask_fit_option|].
    intros fit_option. apply determined_bind_ret. unfold after_input. cbv zeta.
    apply determined_bind; [apply determined_read_data|]. intros data.
    apply determined_bind; [apply determined_fit_data|]. intros [data' params].
    apply determined_bind; [apply determined_save_fit_params|]. intros _.
    apply determined_bind; [apply determined_save_predictions|]. intros _.
    apply determined_plot_data. }
  destruct (D ls o) as (r & rest & out & ws & E).
  exists r, rest, ([prompt_path] ++ out), ws. intros w Hin Hfs.
  change (main L) with (bind get_user_input after_input).
  unfold get_user_input. rewrite bind_bind.
  unfold bind at 1, input at 1. rewrite Hin.
  rewrite bind_bind. rewrite E; [|reflexivity|exact Hfs].
  simpl. now rewrite <- app_assoc.
Qed.

(** ** main, stage by stage *)

Lemma ask_fit_option_fs lines w r w' :
  ask_fit_option lines w = (r, w') -> fs w' = fs w.
Proof.
  revert w. induction lines as [|l lines IH]; intros [si so f]; simpl.
  - unfold input. simpl. destruct si; intros H; inversion H; reflexivity.
  - unfold bind at 1, input at 1. simpl. destruct si as [|l' si'].
    + intros H. inversion H. reflexivity.
    + destruct (valid_option (lower l')).
      * intros H. inversion H. reflexivity.
      * rewrite bind_print. simpl. intros H. apply IH in H. exact H.
Qed.

Lemma get_user_input_fs w r w' : get_user_input w = (r, w') -> fs w' = fs w.
Proof.
  destruct w as [si so f]. unfold get_user_input.
  unfold bind at 1, input at 1. simpl. destruct si as [|p lines].
  - intros H. inversion H. reflexivity.
  - unfold bind. simpl.
    destruct (ask_fit_option lines _) as [[m|e] w1] eqn:E;
      apply ask_fit_option_fs in E; intros H; inversion H; subst; exact E.
Qed.

(** [read_data] on a path that holds no workbook raises and leaves the
    world as it was. *)
Lemma read_data_no_workbook path w :
  (forall sheet, fs w !! path <> Some (Workbook sheet)) ->
  exists e, read_data L path w = (Raise e, w).
Proof.
  intros N. unfold read_data, bind at 1, read_excel.
  destruct (fs w !! path) as [[sheet|text|bytes]|] eqn:E.
  - now destruct (N sheet).
  - now eexists.
  - now eexists.
  - now eexists.
Qed.

(** A table that [loaded] returns is made of the rows kept. *)
Lemma loaded_ok sheet w data w' :
  loaded L sheet w = (Ok data, w') ->
  sheet <> []
  /\ datetime64_column L (map (fun r => r.1.2) sheet) = false
  /\ exists stamps celsius,
       datetime_values L (map (fun r => r.1.1) (kept_rows L sheet)) = Ok stamps
    /\ celsius_values L (map (fun r => r.1.2) (kept_rows L sheet)) = Ok celsius
    /\ data = frame_of_obs (observations stamps celsius (kept_rows L sheet))
    /\ w' = mkWorld (stdin w)
              (stdout w ++ [String newline "Data extracted:"; frame_repr L data])
              (fs w).
Proof.
  unfold loaded. destruct sheet as [|r sheet]; [discriminate|].
  destruct (datetime64_column L _).
  - destruct (datetime_values L _); discriminate.
  - cbv zeta.
    destruct (datetime_values L _) as [stamps|e]; [|discriminate].
    destruct (celsius_values L _) as [celsius|e]; [|discriminate].
    intros [= <- <-]. split; [discriminate|]. split; [reflexivity|].
    exists stamps, celsius. repeat split.
Qed.

(** When [loaded] raises, the world is as it was. *)
Lemma loaded_raises sheet w e w' :
  loaded L sheet w = (Raise e, w') -> w' = w.
Proof.
  unfold loaded. destruct sheet as [|r sheet]; [now intros [= _ <-]|].
  destruct (datetime64_column L _).
  - destruct (datetime_values L _); now intros [= _ <-].
  - cbv zeta.
    destruct (datetime_values L _) as [stamps|e']; [|now intros [= _ <-]].
    destruct (celsius_values L _) as [celsius|e']; [|now intros [= _ <-]].
    discriminate.
Qed.

(** A table that [read_data] returns is a cleaned table, and reading
    changes no file. *)
Lemma read_data_ok path w data w' :
  read_data L path w = (Ok data, w') ->
  exists obs, data = frame_of_obs obs /\ fs w' = fs w.
Proof.
  destruct (fs w !! path) as [[sheet|text|bytes]|] eqn:E.
  - rewrite (read_data_sheet path w sheet E). intros H.
    apply loaded_ok in H as (_ & _ & stamps & celsius & _ & _ & -> & ->).
    eexists. split; reflexivity.
  - destruct (read_data_no_workbook path w) as [e ->]; [congruence|discriminate].
  - destruct (read_data_no_workbook path w) as [e ->]; [congruence|discriminate].
  - destruct (read_data_no_workbook path w) as [e ->]; [congruence|discriminate].
Qed.

(** [main], once the input is read, the table loaded and the fit made. *)
Lemma main_stages w file_path fit_option w1 data w2 data' params w3 :
  get_user_input w = (Ok (file_path, fit_option), w1) ->
  read_data L file_path w1 = (Ok data, w2) ->
  fit_data L data fit_option w2 = (Ok (data', params), w3) ->
  main L w =
  let folder := dirname file_path in
  let out := stdout w3 ++ [frame_to_string L params;
                           String newline "Predictions:"; frame_repr L data'] in
  let files := with_csv_files L (fs w3) folder fit_option data' params in
  match render_figure L data' fit_option with
  | Ok png =>
      (Ok tt, mkWorld (stdin w3) out
                (<[path_join folder (figure_name fit_option) := ImageFile png]> files))
  | Raise e => (Raise e, mkWorld (stdin w3) out files)
  end.
Proof.
  intros H1 H2 H3. unfold main.
  unfold bind at 1. rewrite H1. cbv zeta.
  unfold bind at 1. rewrite H2.
  unfold bind at 1. rewrite H3.
  unfold save_fit_params, save_predictions, plot_data, to_csv.
  rewrite bind_bind. mstep. mstep. rewrite bind_bind. mstep. rewrite bind_bind.
  do 2 mstep. unfold with_csv_files.
  destruct (render_figure L data' fit_option) as [png|e].
  - mstep. unfold write_file. cbn [stdin stdout fs].
    now rewrite <- !app_assoc.
  - mstep. now rewrite <- !app_assoc.
Qed.

(** ** Paths and CSV text *)

Lemma append_empty_r (s : string) : s +:+ EmptyString = s.
Proof.
  induction s as [|c s IH]; [reflexivity|].
  change (String c (s +:+ EmptyString) = String c s). now rewrite IH.
Qed.

Lemma append_cancel_l (a x y : string) : a +:+ x = a +:+ y -> x = y.
Proof.
  induction a as [|c a IH]; intros E; [exact E|].
  change (String c (a +:+ x) = String c (a +:+ y)) in E.
  inversion E. now apply IH.
Qed.

Lemma row_texts_of_floats (pre : list cell) (cs : list float) :
  imap (fun j c => csv_value L (column_at [pre ++ map CFloat cs] (length pre + j)) c)
    (map CFloat cs)
  = map (fun c => csv_value L [CFloat c] (CFloat c)) cs.
Proof.
  revert pre. induction cs as [|c cs IH]; intros pre; [reflexivity|].
  cbn [map imap]. f_equal.
  - unfold column_at. cbn [map]. rewrite Nat.add_0_r.
    now rewrite (nth_middle pre (map CFloat cs) (CFloat c) CNone).
  - rewrite <- (IH (pre ++ [CFloat c])). apply imap_ext. intros j x _.
    cbn. rewrite <- app_assoc, length_app. cbn [length app].
    now replace (length pre + 1 + j)%nat with (length pre + S j)%nat by lia.
Qed.

(** The parameter file: the labels, then the coefficients, one line each. *)
Lemma csv_text_params labels coeffs :
  csv_text L (params_frame labels coeffs)
  = csv_line labels
    +:+ csv_line (map (fun c => csv_value L [CFloat c] (CFloat c)) coeffs).
Proof.
  unfold csv_text, csv_records, params_frame, row_texts.
  cbn [rows columns map concat_text fold_right].
  rewrite append_empty_r. do 2 f_equal.
  exact (row_texts_of_floats [] coeffs).
Qed.

(** The prediction file: the five column names, then one line per row. *)
Lemma csv_text_augmented obs coeffs :
  csv_text L (augmented L obs coeffs)
  = "Time-Stamp,Temperature/°C,Temperature/°F,Prediction/°C,Prediction/°F"
    +:+ String newline
          (concat_text
             (map (fun r => csv_line (row_texts L (rows (augmented L obs coeffs)) r))
                (rows (augmented L obs coeffs)))).
Proof.
  unfold csv_text, csv_records. cbn [columns augmented map concat_text fold_right].
  rewrite map_map. reflexivity.
Qed.

(** ** Few rows *)


(** [main] when the fit raises: nothing is written. *)
Lemma main_fit_raises w file_path fit_option w1 data w2 e w3 :
  get_user_input w = (Ok (file_path, fit_option), w1) ->
  read_data L file_path w1 = (Ok data, w2) ->
  fit_data L data fit_option w2 = (Raise e, w3) ->
  main L w = (Raise e, w3).
Proof.
  intros H1 H2 H3. unfold main.
  unfold bind at 1. rewrite H1. cbv zeta.
  unfold bind at 1. rewrite H2.
  unfold bind at 1. now rewrite H3.
Qed.

(** A sheet with rows, none of them valid: the table is empty and
    [np.polyfit] refuses it. *)
Lemma main_without_valid_rows w file_path fit_option w1 sheet :
  get_user_input w = (Ok (file_path, fit_option), w1) ->
  valid_option fit_option = true ->
  fs w !! file_path = Some (Workbook sheet) ->
  sheet <> [] ->
  datetime64_column L (map (fun r => r.1.2) sheet) = false ->
  kept_rows L sheet = [] ->
  exists w', main L w = (Raise TypeError, w') /\ fs w' = fs w.
Proof.
  intros H1 Hv Hfile N D Hkept.
  pose proof (get_user_input_fs _ _ _ H1) as Hfs.
  assert (fs w1 !! file_path = Some (Workbook sheet)) as Hfile1 by now rewrite Hfs.
  pose proof (read_data_workbook file_path w1 sheet Hfile1 N D) as Hread.
  rewrite Hkept in Hread. cbn in Hread.
  eexists. split.
  - eapply main_fit_raises; [exact H1|exact Hread|].
    rewrite fit_data_cleaned. unfold fit_mode.
    apply valid_option_iff in Hv. destruct Hv as [-> | ->]; reflexivity.
  - cbn [fs]. exact Hfs.
Qed.

Lemma append_string_assoc (a b c : string) : (a +:+ b) +:+ c = a +:+ (b +:+ c).
Proof.
  induction a as [|d a IH]; [reflexivity|].
  change (String d ((a +:+ b) +:+ c) = String d (a +:+ (b +:+ c))).
  now rewrite IH.
Qed.

(** ** The directory of the output files *)

Lemma upto_last_sep_plain n : contains sep n = false -> upto_last_sep n = EmptyString.
Proof.
  destruct n as [|c n]; [reflexivity|]. cbn [contains upto_last_sep].
  intros H. apply orb_false_iff in H as [Hc Hn]. now rewrite Hn, Hc.
Qed.

Lemma ends_with_contains a n :
  ends_with sep a = true -> contains sep (a +:+ n) = true.
Proof.
  induction a as [|c a IH]; [discriminate|]. intros H.
  change (contains sep (String c (a +:+ n)) = true). cbn [contains].
  destruct a as [|d a].
  - cbn [ends_with] in H. now rewrite H.
  - rewrite IH; [apply orb_true_r|exact H].
Qed.

(** After a directory part that ends with a slash, a plain name adds
    nothing to the head. *)
Lemma upto_last_sep_dir a n :
  ends_with sep a = true -> contains sep n = false ->
  upto_last_sep (a +:+ n) = a.
Proof.
  induction a as [|c a IH]; [discriminate|]. intros Ha Hn.
  change (upto_last_sep (String c (a +:+ n)) = String c a). cbn [upto_last_sep].
  destruct a as [|d a].
  - cbn [ends_with] in Ha. change (EmptyString +:+ n) with n. now rewrite Hn, Ha.
  - rewrite ends_with_contains by exact Ha. f_equal. now apply IH.
Qed.

Lemma ends_with_append_sep a : ends_with sep (a +:+ String sep EmptyString) = true.
Proof.
  induction a as [|c a IH]; [reflexivity|].
  change (ends_with sep (String c (a +:+ String sep EmptyString)) = true).
  destruct a as [|d a]; [reflexivity|exact IH].
Qed.

Lemma rstrip_sep_id a : ends_with sep a = false -> rstrip_sep a = a.
Proof.
  induction a as [|c a IH]; [reflexivity|]. intros H. cbn [rstrip_sep].
  destruct a as [|d a].
  - cbn [ends_with] in H. cbn. now rewrite H.
  - rewrite IH by exact H. cbn [is_empty]. now rewrite andb_false_r.
Qed.

Lemma rstrip_sep_ends a : ends_with sep (rstrip_sep a) = false.
Proof.
  induction a as [|c a IH]; [reflexivity|]. cbn [rstrip_sep].
  destruct (ascii_eqb c sep && is_empty (rstrip_sep a)) eqn:E; [reflexivity|].
  destruct (rstrip_sep a) as [|d r] eqn:R.
  - cbn [is_empty] in E. rewrite andb_true_r in E. exact E.
  - exact IH.
Qed.

Lemma all_char_ends a :
  a <> EmptyString -> all_char sep a = true -> ends_with sep a = true.
Proof.
  induction a as [|c a IH]; [contradiction|]. intros _ H. cbn [all_char] in H.
  apply andb_true_iff in H as [Hc Ha].
  destruct a as [|d a]; [exact Hc|]. now apply IH.
Qed.

Lemma ends_with_not_all a :
  a <> EmptyString -> ends_with sep a = false -> all_char sep a = false.
Proof.
  intros Hne He. destruct (all_char sep a) eqn:E; [|reflexivity].
  now rewrite (all_char_ends a Hne E) in He.
Qed.

Lemma is_empty_true a : is_empty a = true -> a = EmptyString.
Proof. now destruct a. Qed.

Lemma is_empty_false a : is_empty a = false -> a <> EmptyString.
Proof. now destruct a. Qed.

(** ** The last component of a path *)

Lemma basename_plain n : contains sep n = false -> basename n = n.
Proof.
  destruct n as [|c n]; [reflexivity|]. cbn [contains basename].
  intros H. apply orb_false_iff in H as [Hc Hn]. now rewrite Hn, Hc.
Qed.

Lemma basename_dir a n :
  ends_with sep a = true -> contains sep n = false -> basename (a +:+ n) = n.
Proof.
  induction a as [|c a IH]; [discriminate|]. intros Ha Hn.
  change (basename (String c (a +:+ n)) = n). cbn [basename].
  destruct a as [|d a].
  - cbn [ends_with] in Ha. change (EmptyString +:+ n) with n. now rewrite Hn, Ha.
  - rewrite ends_with_contains by exact Ha. now apply IH.
Qed.

Lemma starts_with_contains n : contains sep n = false -> starts_with sep n = false.
Proof.
  destruct n as [|c n]; [reflexivity|]. cbn [contains starts_with].
  intros H. now apply orb_false_iff in H as [Hc _].
Qed.

(** A file put into a directory by [os.path.join] has the name it was
    given. *)
Lemma basename_path_join d n :
  contains sep n = false -> basename (path_join d n) = n.
Proof.
  intros Hn. unfold path_join. rewrite (starts_with_contains n Hn).
  destruct d as [|c d]; [now apply basename_plain|]. cbn [is_empty orb].
  destruct (ends_with sep (String c d)) eqn:E.
  - now apply basename_dir.
  - change (String c d +:+ String sep n)
      with (String c d +:+ (String sep EmptyString +:+ n)).
    rewrite <- append_string_assoc.
    apply basename_dir; [apply ends_with_append_sep|exact Hn].
Qed.

Lemma contains_basename p : contains sep (basename p) = false.
Proof.
  induction p as [|c p IH]; [reflexivity|]. cbn [basename].
  destruct (contains sep p) eqn:E; [exact IH|].
  destruct (ascii_eqb c sep) eqn:Ec; [exact E|].
  cbn [contains]. now rewrite Ec, E.
Qed.

Lemma upto_last_sep_basename p : upto_last_sep p +:+ basename p = p.
Proof.
  induction p as [|c p IH]; [reflexivity|]. cbn [upto_last_sep basename].
  destruct (contains sep p) eqn:E.
  - change (String c (upto_last_sep p +:+ basename p) = String c p). now rewrite IH.
  - destruct (ascii_eqb c sep); reflexivity.
Qed.

Lemma upto_last_sep_ends p :
  upto_last_sep p = EmptyString \/ ends_with sep (upto_last_sep p) = true.
Proof.
  induction p as [|c p IH]; [now left|]. cbn [upto_last_sep].
  destruct (contains sep p) eqn:E.
  - right. destruct IH as [IH|IH].
    + exfalso. clear -E IH. induction p as [|d p IHp]; [discriminate|].
      cbn [upto_last_sep contains] in *.
      destruct (contains sep p); [discriminate|].
      rewrite orb_false_r in E. now rewrite E in IH.
    + destruct (upto_last_sep p); [discriminate|exact IH].
  - destruct (ascii_eqb c sep) eqn:Ec; [right; exact Ec|now left].
Qed.

(** ** A path as directory, slashes and name *)

Lemma ends_with_append c a b :
  b <> EmptyString -> ends_with c (a +:+ b) = ends_with c b.
Proof.
  intros Hb. induction a as [|d a IH]; [reflexivity|].
  change (ends_with c (String d (a +:+ b)) = ends_with c b). cbn [ends_with].
  destruct (a +:+ b) eqn:E; [|exact IH].
  destruct a; [now destruct b|discriminate].
Qed.

Lemma all_char_append c a b :
  all_char c (a +:+ b) = all_char c a && all_char c b.
Proof.
  induction a as [|d a IH]; [reflexivity|].
  change (all_char c (String d (a +:+ b)) = all_char c (String d a) && all_char c b).
  cbn [all_char]. now rewrite IH, andb_assoc.
Qed.

Lemma rstrip_sep_all b : all_char sep b = true -> rstrip_sep b = EmptyString.
Proof.
  induction b as [|c b IH]; [reflexivity|]. cbn [all_char rstrip_sep].
  intros H. apply andb_true_iff in H as [Hc Hb]. now rewrite (IH Hb), Hc.
Qed.

Lemma rstrip_sep_append_all a b :
  all_char sep b = true -> rstrip_sep (a +:+ b) = rstrip_sep a.
Proof.
  intros Hb. induction a as [|c a IH]; [now apply rstrip_sep_all|].
  change (rstrip_sep (String c (a +:+ b)) = rstrip_sep (String c a)).
  cbn [rstrip_sep]. now rewrite IH.
Qed.

(** A text is what [rstrip] leaves of it, followed by slashes. *)
Lemma rstrip_sep_split a :
  exists s, a = rstrip_sep a +:+ s /\ all_char sep s = true.
Proof.
  induction a as [|c a (s & E & Hs)]; [now exists EmptyString|].
  cbn [rstrip_sep].
  destruct (ascii_eqb c sep && is_empty (rstrip_sep a)) eqn:Ec.
  - apply andb_true_iff in Ec as [Hc He]. apply is_empty_true in He.
    exists (String c a). split; [reflexivity|]. cbn [all_char]. rewrite Hc.
    rewrite He in E. change (EmptyString +:+ s) with s in E. now rewrite E.
  - exists s. split; [|exact Hs].
    change (String c a = String c (rstrip_sep a +:+ s)). now rewrite <- E.
Qed.

(** [os.path.dirname] of a path given as a directory that does not end with
    a slash, the slashes after it and a name without slash. *)
Lemma dirname_split dir slashes base :
  contains sep base = false -> all_char sep slashes = true ->
  ends_with sep dir = false -> (slashes = EmptyString -> dir = EmptyString) ->
  dirname (dir +:+ slashes +:+ base)
  = if is_empty slashes then EmptyString
    else if is_empty dir then slashes else dir.
Proof.
  intros Hb Hs Hd He. destruct (is_empty slashes) eqn:Es.
  - apply is_empty_true in Es. rewrite (He Es), Es.
    change (dirname base = EmptyString). unfold dirname.
    now rewrite (upto_last_sep_plain base Hb).
  - apply is_empty_false in Es.
    rewrite <- append_string_assoc. unfold dirname.
    assert (ends_with sep (dir +:+ slashes) = true) as Hends.
    { rewrite ends_with_append by exact Es. now apply all_char_ends. }
    rewrite (upto_last_sep_dir _ base Hends Hb).
    assert (is_empty (dir +:+ slashes) = false) as ->.
    { destruct dir; [|reflexivity]. now destruct slashes. }
    rewrite all_char_append, Hs, andb_true_r. cbn [negb andb].
    destruct (is_empty dir) eqn:Ed.
    + apply is_empty_true in Ed. subst dir. reflexivity.
    + apply is_empty_false in Ed.
      rewrite (ends_with_not_all dir Ed Hd). cbn [negb].
      now rewrite rstrip_sep_append_all, rstrip_sep_id.
Qed.

(** Where [main] puts a file named [name]: beside the input file. *)
Lemma output_path_split dir slashes base name :
  contains sep base = false -> all_char sep slashes = true ->
  ends_with sep dir = false -> (slashes = EmptyString -> dir = EmptyString) ->
  starts_with sep name = false ->
  path_join (dirname (dir +:+ slashes +:+ base)) name
  = (if is_empty slashes then EmptyString
     else if is_empty dir then slashes else dir +:+ "/") +:+ name.
Proof.
  intros Hb Hs Hd He Hn. rewrite (dirname_split dir slashes base Hb Hs Hd He).
  unfold path_join. rewrite Hn.
  destruct (is_empty slashes) eqn:Es; [reflexivity|].
  destruct (is_empty dir) eqn:Ed.
  - rewrite Es. cbn [orb].
    now rewrite (all_char_ends slashes (is_empty_false _ Es) Hs).
  - rewrite Ed, Hd. cbn [orb]. rewrite append_string_assoc. reflexivity.
Qed.

(** Every path is of that form. *)
Lemma path_split p :
  exists dir slashes base,
    p = dir +:+ slashes +:+ base
    /\ contains sep base = false /\ all_char sep slashes = true
    /\ ends_with sep dir = false
    /\ (slashes = EmptyString -> dir = EmptyString).
Proof.
  destruct (rstrip_sep_split (upto_last_sep p)) as (s & E & Hs).
  exists (rstrip_sep (upto_last_sep p)), s, (basename p).
  split; [|split; [apply contains_basename|split; [exact Hs|split]]].
  - rewrite <- append_string_assoc, <- E. symmetry. apply upto_last_sep_basename.
  - apply rstrip_sep_ends.
  - intros ->. rewrite append_empty_r in E.
    destruct (upto_last_sep_ends p) as [H|H]; [now rewrite H|].
    rewrite E in H. now rewrite rstrip_sep_ends in H.
Qed.

(** There is one way only to split a path so. *)
Lemma path_split_unique dir slashes base dir' slashes' base' :
  dir +:+ slashes +:+ base = dir' +:+ slashes' +:+ base' ->
  contains sep base = false -> all_char sep slashes = true ->
  ends_with sep dir = false -> (slashes = EmptyString -> dir = EmptyString) ->
  contains sep base' = false -> all_char sep slashes' = true ->
  ends_with sep dir' = false -> (slashes' = EmptyString -> dir' = EmptyString) ->
  dir = dir' /\ slashes = slashes' /\ base = base'.
Proof.
  intros E Hb Hs Hd He Hb' Hs' Hd' He'.
  assert (forall d s b,
            contains sep b = false -> all_char sep s = true ->
            ends_with sep d = false -> (s = EmptyString -> d = EmptyString) ->
            upto_last_sep (d +:+ s +:+ b) = d +:+ s
            /\ rstrip_sep (d +:+ s) = d) as H.
  { intros d s b Cb Cs Cd Ce. split.
    - destruct (is_empty s) eqn:Es.
      + apply is_empty_true in Es. rewrite (Ce Es), Es.
        now apply upto_last_sep_plain.
      + apply is_empty_false in Es. rewrite <- append_string_assoc.
        apply upto_last_sep_dir; [|exact Cb].
        rewrite ends_with_append by exact Es. now apply all_char_ends.
    - now rewrite rstrip_sep_append_all, rstrip_sep_id. }
  destruct (H dir slashes base Hb Hs Hd He) as [U R].
  destruct (H dir' slashes' base' Hb' Hs' Hd' He') as [U' R'].
  rewrite E, U' in U.
  assert (dir = dir') as <- by (rewrite <- R, <- R', U; reflexivity).
  apply append_cancel_l in U. subst slashes'.
  now do 2 apply append_cancel_l in E.
Qed.

(** ** Sums of squared residuals *)





(** ** The prompt loop, with the echoes left open *)

Lemma flat_map_map {A B C} (g : A -> B) (h : B -> list C) (l : list A) :
  flat_map h (map g l) = flat_map (fun a => h (g a)) l.
Proof.
  induction l as [|a l IH]; [reflexivity|]. cbn [map flat_map]. now rewrite IH.
Qed.

Lemma echoes_of_rejected (rejected : list string) :
  Forall2 (fun l e => is_ascii l = true -> e = invalid_option (lower l))
    rejected (map (fun l => invalid_option (lower l)) rejected).
Proof. induction rejected; constructor; auto. Qed.

End Facts.

(** * Runs of the stages and of main *)

Section FurtherFacts.

Variable L : Libs.

(** ** Outcomes of the stages *)

Lemma ask_fit_option_outcome lines :
  exists r rest printed,
    (forall out f,
        ask_fit_option lines (mkWorld lines out f)
        = (r, mkWorld rest (out ++ printed) f))
    /\ (r = Raise EOFError /\ rest = []
        \/ exists skipped l,
             r = Ok (lower l) /\ valid_option (lower l) = true
             /\ lines = skipped ++ l :: rest).
Proof.
  induction lines as [|l lines IH].
  - exists (Raise EOFError), [], [prompt_option]. split; [reflexivity|now left].
  - destruct (valid_option (lower l)) eqn:V.
    + exists (Ok (lower l)), lines, [prompt_option]. split.
      * intros out f. cbn [ask_fit_option]. unfold bind, input. cbn [stdin stdout fs].
        now rewrite V.
      * right. now exists [], l.
    + destruct IH as (r & rest & printed & E & Hcases).
      exists r, rest, ([prompt_option; invalid_option (lower l)] ++ printed). split.
      * intros out f. cbn [ask_fit_option].
        unfold bind at 1, input at 1. cbn [stdin stdout fs].
        rewrite V, bind_print. cbn [stdin stdout fs].
        rewrite E. now rewrite <- !app_assoc.
      * destruct Hcases as [Heof|(skipped & l' & Hr & Hv & Hl)]; [now left|].
        right. exists (l :: skipped), l'. repeat split; try assumption.
        now rewrite Hl.
Qed.

(** What [get_user_input] returns, leaves and prints is decided by the
    input alone. *)
Lemma get_user_input_by_input si :
  exists r rest printed,
    (forall out f,
        get_user_input (mkWorld si out f) = (r, mkWorld rest (out ++ printed) f))
    /\ (r = Raise EOFError /\ rest = []
        \/ exists file_path skipped l,
             r = Ok (file_path, lower l)
             /\ (lower l = "linear" \/ lower l = "quadratic")
             /\ si = file_path :: skipped ++ l :: rest).
Proof.
  destruct si as [|p lines].
  - exists (Raise EOFError), [], [prompt_path]. split; [reflexivity|now left].
  - destruct (ask_fit_option_outcome lines) as (r0 & rest & printed & E & Hcases).
    destruct Hcases as [[-> ->]|(skipped & l & -> & Hv & Hl)].
    + exists (Raise EOFError), [], ([prompt_path] ++ printed). split; [|now left].
      intros out f. unfold get_user_input, bind at 1, input at 1.
      cbn [stdin stdout fs]. unfold bind. cbn [stdin]. rewrite E.
      now rewrite <- app_assoc.
    + exists (Ok (p, lower l)), rest, ([prompt_path] ++ printed). split.
      * intros out f. unfold get_user_input, bind at 1, input at 1.
        cbn [stdin stdout fs]. unfold bind. cbn [stdin]. rewrite E.
        unfold ret. now rewrite <- app_assoc.
      * right. exists p, skipped, l. apply valid_option_iff in Hv.
        repeat split; [exact Hv|now rewrite Hl].
Qed.

Lemma read_data_raises path w e w' :
  read_data L path w = (Raise e, w') -> w' = w.
Proof.
  destruct (fs w !! path) as [[sheet|text|bytes]|] eqn:E.
  - rewrite (read_data_sheet L path w sheet E). apply loaded_raises.
  - destruct (read_data_no_workbook L path w) as [e' ->];
      [congruence|now intros [= _ <-]].
  - destruct (read_data_no_workbook L path w) as [e' ->];
      [congruence|now intros [= _ <-]].
  - destruct (read_data_no_workbook L path w) as [e' ->];
      [congruence|now intros [= _ <-]].
Qed.

Lemma fit_data_cleaned_world obs fit_option w r w' :
  fit_data L (frame_of_obs obs) fit_option w = (r, w') ->
  fs w' = fs w /\ stdin w' = stdin w.
Proof.
  rewrite fit_data_cleaned.
  destruct (fit_mode fit_option) as [[[deg labels] line]|]; [|now intros [= _ <-]].
  destruct (polyfit L _ _ deg) as [params|e]; [|now intros [= _ <-]].
  cbv zeta. destruct (length params =? length labels)%nat; now intros [= _ <-].
Qed.

Lemma main_input_raises w e w1 :
  get_user_input w = (Raise e, w1) -> main L w = (Raise e, w1).
Proof. intros H. unfold main, bind at 1. now rewrite H. Qed.

Lemma main_read_raises w file_path fit_option w1 e w2 :
  get_user_input w = (Ok (file_path, fit_option), w1) ->
  read_data L file_path w1 = (Raise e, w2) ->
  main L w = (Raise e, w2).
Proof.
  intros H1 H2. unfold main. unfold bind at 1. rewrite H1. cbv zeta.
  unfold bind at 1. now rewrite H2.
Qed.

(** A path that is none of the three output paths of the run holds after
    [main] what it held before, however the run ends. *)
Lemma main_frame w q :
  (forall file_path fit_option w1,
      get_user_input w = (Ok (file_path, fit_option), w1) ->
      q <> path_join (dirname file_path) (fit_parameters_name fit_option)
      /\ q <> path_join (dirname file_path) (predictions_name fit_option)
      /\ q <> path_join (dirname file_path) (figure_name fit_option)) ->
  fs (snd (main L w)) !! q = fs w !! q.
Proof.
  intros Hq.
  destruct (get_user_input w) as [[[file_path fit_option]|e] w1] eqn:H1.
  - destruct (Hq _ _ _ eq_refl) as (Q1 & Q2 & Q3).
    pose proof (get_user_input_fs _ _ _ H1) as F1.
    destruct (read_data L file_path w1) as [[data|e] w2] eqn:H2.
    + destruct (read_data_ok L _ _ _ _ H2) as (obs & -> & F2).
      destruct (fit_data L (frame_of_obs obs) fit_option w2)
        as [[[data' params]|e] w3] eqn:H3.
      * destruct (fit_data_cleaned_world _ _ _ _ _ H3) as [F3 _].
        rewrite (main_stages L _ _ _ _ _ _ _ _ _ H1 H2 H3). cbv zeta.
        unfold with_csv_files.
        destruct (render_figure L data' fit_option); cbn [snd fs];
          rewrite ?lookup_insert_ne by congruence; congruence.
      * destruct (fit_data_cleaned_world _ _ _ _ _ H3) as [F3 _].
        rewrite (main_fit_raises L _ _ _ _ _ _ _ _ H1 H2 H3). cbn [snd]. congruence.
    + rewrite (main_read_raises _ _ _ _ _ _ H1 H2). cbn [snd].
      apply read_data_raises in H2. congruence.
  - rewrite (main_input_raises _ _ _ H1). cbn [snd].
    apply get_user_input_fs in H1. congruence.
Qed.

(** ** Output paths *)

Lemma starts_with_append m s :
  starts_with sep (m +:+ s)
  = if is_empty m then starts_with sep s else starts_with sep m.
Proof. now destruct m. Qed.

(** Two output names of one mode land on two paths, whatever the mode. *)
Lemma path_join_names_differ d m s1 s2 :
  starts_with sep s1 = false -> starts_with sep s2 = false -> s1 <> s2 ->
  path_join d (m +:+ s1) <> path_join d (m +:+ s2).
Proof.
  intros S1 S2 N. unfold path_join. rewrite !starts_with_append, S1, S2.
  destruct (if is_empty m then false else starts_with sep m);
    [|destruct (is_empty d || ends_with sep d)]; intros E.
  - now apply append_cancel_l in E.
  - now do 2 apply append_cancel_l in E.
  - apply append_cancel_l in E. inversion E as [E']. now apply append_cancel_l in E'.
Qed.

Lemma last_char_append a b :
  b <> EmptyString -> last_char (a +:+ b) = last_char b.
Proof.
  intros Hb. induction a as [|c a IH]; [reflexivity|].
  change (last_char (String c (a +:+ b)) = last_char b). cbn [last_char].
  destruct (a +:+ b) eqn:E; [|exact IH].
  destruct a; [|discriminate]. now destruct b.
Qed.

Lemma last_char_path_join d n :
  n <> EmptyString -> last_char (path_join d n) = last_char n.
Proof.
  intros Hn. unfold path_join.
  destruct (starts_with sep n); [reflexivity|].
  destruct (is_empty d || ends_with sep d).
  - now apply last_char_append.
  - change (d +:+ String sep n) with (d +:+ (String sep EmptyString +:+ n)).
    rewrite <- append_string_assoc. now apply last_char_append.
Qed.

(** A path that ends in [.xlsx] is none of the output paths. *)
Lemma xlsx_is_no_output base d m :
  base +:+ ".xlsx" <> path_join d (fit_parameters_name m)
  /\ base +:+ ".xlsx" <> path_join d (predictions_name m)
  /\ base +:+ ".xlsx" <> path_join d (figure_name m).
Proof.
  assert (forall s, s <> EmptyString -> m +:+ s <> EmptyString) as Hne.
  { intros s Hs. destruct m; [exact Hs|discriminate]. }
  assert (last_char (base +:+ ".xlsx") = Some "x"%char) as Hx
    by now rewrite last_char_append.
  repeat split; intros E; rewrite E in Hx;
    rewrite last_char_path_join in Hx by (apply Hne; discriminate);
    unfold fit_parameters_name, predictions_name, figure_name in Hx;
    rewrite last_char_append in Hx by discriminate; discriminate.
Qed.

(** The two CSV files after a run that made the fit. *)
Lemma main_csv_lookups w file_path fit_option w1 data w2 data' params w3 :
  get_user_input w = (Ok (file_path, fit_option), w1) ->
  read_data L file_path w1 = (Ok data, w2) ->
  fit_data L data fit_option w2 = (Ok (data', params), w3) ->
  fs (snd (main L w)) !! path_join (dirname file_path) (fit_parameters_name fit_option)
    = Some (TextFile (csv_text L params))
  /\ fs (snd (main L w)) !! path_join (dirname file_path) (predictions_name fit_option)
    = Some (TextFile (csv_text L data')).
Proof.
  intros H1 H2 H3.
  rewrite (main_stages L _ _ _ _ _ _ _ _ _ H1 H2 H3). cbv zeta.
  assert (path_join (dirname file_path) (predictions_name fit_option)
          <> path_join (dirname file_path) (fit_parameters_name fit_option)) as N1
    by (apply path_join_names_differ; reflexivity || discriminate).
  assert (path_join (dirname file_path) (figure_name fit_option)
          <> path_join (dirname file_path) (fit_parameters_name fit_option)) as N2
    by (apply path_join_names_differ; reflexivity || discriminate).
  assert (path_join (dirname file_path) (figure_name fit_option)
          <> path_join (dirname file_path) (predictions_name fit_option)) as N3
    by (apply path_join_names_differ; reflexivity || discriminate).
  unfold with_csv_files.
  destruct (render_figure L data' fit_option); cbn [snd fs]; split;
    rewrite ?lookup_insert_ne by assumption; apply lookup_insert_eq.
Qed.

(** ** Fitting a table that was fitted before *)

Lemma set_col_replace_prediction_c obs old params :
  set_col (augmented L obs old) col_PredC
    (map CFloat (map (polyval params) (x_num_of L obs)))
  = Ok (mkDataFrame [col_TimeStamp; col_TempC; col_TempF; col_PredC; col_PredF]
          (refitted_rows L obs params old)).
Proof.
  unfold set_col, x_num_of, augmented, refitted_rows. cbn [rows columns].
  rewrite !length_map, Nat.eqb_refl. cbn [negb].
  change (col_index col_PredC
            [col_TimeStamp; col_TempC; col_TempF; col_PredC; col_PredF])
    with (Some 3%nat).
  cbv iota beta. do 2 f_equal. rewrite !map_map.
  exact (zip_with_map_same (fun r v => <[3%nat:=v]> r) (augmented_row L old) _ obs).
Qed.

Lemma get_col_refitted_c obs old params :
  get_col (mkDataFrame [col_TimeStamp; col_TempC; col_TempF; col_PredC; col_PredF]
             (refitted_rows L obs params old)) col_PredC
  = Ok (map (fun o => CFloat (prediction L params o)) obs).
Proof.
  unfold get_col, refitted_rows. cbn [rows columns].
  change (col_index col_PredC
            [col_TimeStamp; col_TempC; col_TempF; col_PredC; col_PredF])
    with (Some 3%nat).
  cbv iota beta. f_equal. now rewrite map_map.
Qed.

Lemma set_col_replace_prediction_f obs old params :
  set_col (mkDataFrame [col_TimeStamp; col_TempC; col_TempF; col_PredC; col_PredF]
             (refitted_rows L obs params old)) col_PredF
    (map CFloat (map celsius_to_fahrenheit (map (prediction L params) obs)))
  = Ok (augmented L obs params).
Proof.
  unfold set_col, augmented, refitted_rows. cbn [rows columns].
  rewrite !length_map, Nat.eqb_refl. cbn [negb].
  change (col_index col_PredF
            [col_TimeStamp; col_TempC; col_TempF; col_PredC; col_PredF])
    with (Some 4%nat).
  cbv iota beta. do 2 f_equal. rewrite !map_map.
  exact (zip_with_map_same (fun r v => <[4%nat:=v]> r)
           (fun o => obs_row o ++ [CFloat (prediction L params o);
                                   CFloat (celsius_to_fahrenheit (prediction L old o))])
           _ obs).
Qed.

(** ** Columns and kept rows *)

Lemma col_index_absent name cols : ~ In name cols -> col_index name cols = None.
Proof.
  induction cols as [|c cols IH]; [reflexivity|]. intros H. cbn [col_index].
  destruct (String.eqb c name) eqn:E.
  - apply String.eqb_eq in E. subst. exfalso. apply H. now left.
  - rewrite IH; [reflexivity|]. intros Hin. apply H. now right.
Qed.

Lemma col_index_present name cols :
  In name cols -> exists i, col_index name cols = Some i.
Proof.
  induction cols as [|c cols IH]; [contradiction|]. intros H. cbn [col_index].
  destruct (String.eqb c name) eqn:E; [now exists 0%nat|].
  destruct H as [->|H]; [now rewrite String.eqb_refl in E|].
  destruct (IH H) as [i ->]. now exists (S i).
Qed.

Lemma kept_rows_valid sheet :
  Forall (fun r => valid_row L r = true) (kept_rows L sheet).
Proof.
  unfold kept_rows. induction sheet as [|r sheet IH]; [constructor|].
  cbn [List.filter]. destruct (valid_row L r) eqn:E; [constructor|]; assumption.
Qed.

Lemma kept_rows_length sheet : (length (kept_rows L sheet) <= length sheet)%nat.
Proof.
  unfold kept_rows. induction sheet as [|r sheet IH]; [reflexivity|].
  cbn [List.filter]. destruct (valid_row L r); cbn [length]; lia.
Qed.

Lemma observations_shape stamps celsius kept :
  Forall (fun r => valid_row L r = true) kept ->
  Forall (fun r => exists t c f, r = [CTime t; CFloat c; f] /\ isna f = false)
    (map obs_row (observations stamps celsius kept)).
Proof.
  intros Hkept. revert stamps celsius.
  induction Hkept as [|r kept Hr _ IH]; intros [|t stamps] [|c celsius];
    try constructor.
  - exists t, c, r.2. split; [reflexivity|].
    unfold valid_row in Hr. apply andb_true_iff in Hr as [Hr _].
    apply andb_true_iff in Hr as [_ Hr]. unfold notna in Hr.
    now destruct (isna r.2).
  - apply IH.
Qed.

Lemma observations_length stamps celsius kept :
  (length (observations stamps celsius kept) <= length kept)%nat.
Proof.
  unfold observations. rewrite length_zip_with, length_map. lia.
Qed.

(** ** Runs in two worlds *)

Lemma get_user_input_path p ls out f file_path fit_option w1 :
  get_user_input (mkWorld (p :: ls) out f) = (Ok (file_path, fit_option), w1) ->
  file_path = p.
Proof.
  destruct (get_user_input_by_input (p :: ls)) as (r & rest & printed & E & Hcases).
  rewrite E. intros [= -> _].
  destruct Hcases as [[? _]|(fp & skipped & l & Hr & _ & Hs)]; [discriminate|].
  inversion Hr. inversion Hs. congruence.
Qed.

Lemma dirname_plain p : contains sep p = false -> dirname p = EmptyString.
Proof. intros H. unfold dirname. now rewrite (upto_last_sep_plain p H). Qed.

Lemma path_join_empty n : path_join EmptyString n = n.
Proof. unfold path_join. now destruct (starts_with sep n). Qed.

(** ** The input file and the output files *)

(** A path whose last component is none of the three output names is none
    of the three output paths. *)
Lemma basename_is_no_output p d m :
  m = "linear" \/ m = "quadratic" ->
  basename p <> fit_parameters_name m
  /\ basename p <> predictions_name m
  /\ basename p <> figure_name m ->
  p <> path_join d (fit_parameters_name m)
  /\ p <> path_join d (predictions_name m)
  /\ p <> path_join d (figure_name m).
Proof.
  intros Hm (N1 & N2 & N3).
  repeat split; intros E; [apply N1|apply N2|apply N3]; rewrite E;
    apply basename_path_join; destruct Hm as [-> | ->]; reflexivity.
Qed.

(** A second run, on the files the first run left, when the first run left
    the input file as it was. *)
Lemma main_again p ls out out' f r w1 :
  main L (mkWorld (p :: ls) out f) = (r, w1) ->
  fs w1 !! p = f !! p ->
  exists w2,
    main L (mkWorld (p :: ls) out' (fs w1)) = (r, w2) /\ fs w2 = fs w1.
Proof.
  intros Hrun Hsame.
  destruct (main_determined L p ls (f !! p)) as (r0 & rest & lines & ws & E).
  rewrite (E (mkWorld (p :: ls) out f) eq_refl eq_refl) in Hrun.
  inversion Hrun; subst r0 w1. cbn [fs] in *.
  eexists. split.
  - apply (E (mkWorld (p :: ls) out' (apply_writes f ws)) eq_refl Hsame).
  - cbn [fs]. apply apply_writes_twice.
Qed.



End FurtherFacts.

(** * The claims *)




(** C3. In every row of the table that [fit_data] returns, the Fahrenheit
    prediction is the Celsius prediction times 9, divided by 5, plus 32, in
    float64 arithmetic. *)
Theorem fit_data_fahrenheit_prediction (L : Libs) (obs : list observation)
    (fit_option : string) (w w' : world) (data params : DataFrame) :
  fit_data L (frame_of_obs obs) fit_option w = (Ok (data, params), w') ->
  exists pred_c pred_f : list float,
    get_col data col_PredC = Ok (map CFloat pred_c)
    /\ get_col data col_PredF = Ok (map CFloat pred_f)
    /\ length pred_c = length (rows data)
    /\ pred_f = map (fun c => (c * 9 / 5 + 32)%float) pred_c.
Proof.
  intros H. apply fit_data_cleaned_ok in H.
  destruct H as (deg & labels & line & coeffs & _ & _ & _ & -> & _ & _).
  exists (map (prediction L coeffs) obs),
         (map celsius_to_fahrenheit (map (prediction L coeffs) obs)).
  rewrite get_col_augmented_c, get_col_augmented_f, !map_map.
  repeat split. simpl. now rewrite !length_map.
Qed.

Lemma fit_data_fahrenheit_prediction_witness :
  exists pred_c pred_f : list float,
    get_col (augmented demo_libs demo_obs demo_linear_coeffs) col_PredC
      = Ok (map CFloat pred_c)
    /\ get_col (augmented demo_libs demo_obs demo_linear_coeffs) col_PredF
      = Ok (map CFloat pred_f)
    /\ length pred_c = length (rows (augmented demo_libs demo_obs demo_linear_coeffs))
    /\ pred_f = map (fun c => (c * 9 / 5 + 32)%float) pred_c.
Proof.
  apply (fit_data_fahrenheit_prediction demo_libs demo_obs "linear"
           (demo_world [] demo_sheet)
           (mkWorld [] [String newline "Linear fit parameters: ax + b"]
              (fs (demo_world [] demo_sheet)))
           (augmented demo_libs demo_obs demo_linear_coeffs)
           (mkDataFrame ["a"; "b"] [map CFloat demo_linear_coeffs])).
  vm_compute. reflexivity.
Defined.

(** C10. On a cleaned table, [fit_data] keeps the number of rows, their
    order and the cells of the three original columns: the table it returns
    has the two prediction columns after the original three, and each of its
    rows is the original row followed by the two predictions. *)
Theorem fit_data_keeps_original_columns (L : Libs) (obs : list observation)
    (fit_option : string) (w w' : world) (data params : DataFrame) :
  fit_data L (frame_of_obs obs) fit_option w = (Ok (data, params), w') ->
  columns data = columns (frame_of_obs obs) ++ [col_PredC; col_PredF]
  /\ length (rows data) = length (rows (frame_of_obs obs))
  /\ Forall2 (fun r r' => exists pc pf : float, r' = r ++ [CFloat pc; CFloat pf])
       (rows (frame_of_obs obs)) (rows data)
  /\ (forall name, In name (columns (frame_of_obs obs)) ->
        get_col data name = get_col (frame_of_obs obs) name).
Proof.
  intros H. apply fit_data_cleaned_ok in H.
  destruct H as (deg & labels & line & coeffs & _ & _ & _ & -> & _ & _).
  split; [reflexivity|]. split; [simpl; now rewrite !length_map|]. split.
  - simpl. clear. induction obs as [|o obs' IH]; simpl; constructor; [|exact IH].
    now exists (prediction L coeffs o),
               (celsius_to_fahrenheit (prediction L coeffs o)).
  - intros name Hin. now apply get_col_augmented_original.
Qed.

Lemma fit_data_keeps_original_columns_witness :
  columns (augmented demo_libs demo_obs demo_linear_coeffs)
    = columns (frame_of_obs demo_obs) ++ [col_PredC; col_PredF]
  /\ length (rows (augmented demo_libs demo_obs demo_linear_coeffs))
     = length (rows (frame_of_obs demo_obs))
  /\ Forall2 (fun r r' => exists pc pf : float, r' = r ++ [CFloat pc; CFloat pf])
       (rows (frame_of_obs demo_obs))
       (rows (augmented demo_libs demo_obs demo_linear_coeffs))
  /\ (forall name, In name (columns (frame_of_obs demo_obs)) ->
        get_col (augmented demo_libs demo_obs demo_linear_coeffs) name
        = get_col (frame_of_obs demo_obs) name).
Proof.
  apply (fit_data_keeps_original_columns demo_libs demo_obs "linear"
           (demo_world [] demo_sheet)
           (mkWorld [] [String newline "Linear fit parameters: ax + b"]
              (fs (demo_world [] demo_sheet)))
           (augmented demo_libs demo_obs demo_linear_coeffs)
           (mkDataFrame ["a"; "b"] [map CFloat demo_linear_coeffs])).
  vm_compute. reflexivity.
Defined.

(** C5. For a mode that is neither [linear] nor [quadratic], [fit_data]
    raises: on any table the call ends in an exception, and on a cleaned
    table it is [NotImplementedError], raised before anything is printed or
    changed. No run of [get_user_input] returns such a mode. *)
Theorem fit_data_rejects_other_modes (L : Libs) (fit_option : string) :
  fit_option <> "linear" -> fit_option <> "quadratic" ->
  (forall data w, exists e w', fit_data L data fit_option w = (Raise e, w'))
  /\ (forall obs w,
        fit_data L (frame_of_obs obs) fit_option w = (Raise NotImplementedError, w))
  /\ (forall w file_path w',
        get_user_input w <> (Ok (file_path, fit_option), w')).
Proof.
  intros N1 N2. split; [|split].
  - intros data w. unfold fit_data.
    destruct (result_bind (get_col data col_TimeStamp) datetime64_values) as [x|e];
      [|now exists e, w].
    mstep.
    destruct (result_bind (get_col data col_TempC) float64_values) as [y|e];
      [|now exists e, w].
    mstep.
    apply String.eqb_neq in N1, N2. rewrite N1, N2.
    now exists NotImplementedError, w.
  - intros obs w. rewrite fit_data_cleaned. now rewrite fit_mode_none.
  - intros w file_path w' H. apply get_user_input_valid in H.
    apply valid_option_iff in H. tauto.
Qed.

Lemma fit_data_rejects_other_modes_witness :
  (forall data w, exists e w', fit_data demo_libs data "cubic" w = (Raise e, w'))
  /\ (forall obs w,
        fit_data demo_libs (frame_of_obs obs) "cubic" w = (Raise NotImplementedError, w))
  /\ (forall w file_path w',
        get_user_input w <> (Ok (file_path, "cubic"), w')).
Proof.
  apply (fit_data_rejects_other_modes demo_libs "cubic"); discriminate.
Defined.

(** C4. [get_user_input] asks for the mode again after every line whose
    lower-case form is neither [linear] nor [quadratic], printing one line
    of rejection each time, and stops at the first line whose lower-case
    form is one of the two; it returns the path and that lower-case form,
    and leaves the rest of the input unread. The rejection of a line of
    ASCII characters quotes its lower-case form; the theorem leaves open
    what it quotes of a line with other characters. *)
Theorem get_user_input_reprompts (file_path : string) (rejected : list string)
    (accepted : string) (rest out : list string) (f : gmap string file) :
  Forall (fun l => lower l <> "linear" /\ lower l <> "quadratic") rejected ->
  lower accepted = "linear" \/ lower accepted = "quadratic" ->
  exists echoes : list string,
    get_user_input (mkWorld (file_path :: rejected ++ accepted :: rest) out f)
    = (Ok (file_path, lower accepted),
       mkWorld rest
         (out ++ [prompt_path]
              ++ flat_map (fun e => [prompt_option; e]) echoes
              ++ [prompt_option])
         f)
    /\ Forall2 (fun l e => is_ascii l = true -> e = invalid_option (lower l))
         rejected echoes.
Proof.
  intros Hrej Hacc.
  exists (map (fun l => invalid_option (lower l)) rejected).
  split; [|apply echoes_of_rejected].
  unfold get_user_input.
  unfold bind at 1, input at 1. cbn [stdin stdout fs].
  unfold bind at 1. cbn [stdin].
  rewrite ask_fit_option_accepts.
  - unfold ret, rejection_lines. rewrite flat_map_map. now rewrite <- !app_assoc.
  - eapply Forall_impl; [exact Hrej|]. intros l [N1 N2]. cbv beta.
    destruct (valid_option (lower l)) eqn:E; [|reflexivity].
    apply valid_option_iff in E. tauto.
  - now apply valid_option_iff.
Qed.

Lemma get_user_input_reprompts_witness :
  exists echoes : list string,
    get_user_input
      (mkWorld ("run/data.xlsx" :: ["cubic"; " linear"; ""] ++ "QUADRATIC" :: ["Linear"])
         [] ∅)
    = (Ok ("run/data.xlsx", lower "QUADRATIC"),
       mkWorld ["Linear"]
         ([] ++ [prompt_path]
             ++ flat_map (fun e => [prompt_option; e]) echoes
             ++ [prompt_option])
         ∅)
    /\ Forall2 (fun l e => is_ascii l = true -> e = invalid_option (lower l))
         ["cubic"; " linear"; ""] echoes.
Proof.
  apply (get_user_input_reprompts "run/data.xlsx" ["cubic"; " linear"; ""]
           "QUADRATIC" ["Linear"] [] ∅).
  - repeat constructor; discriminate.
  - right. reflexivity.
Defined.




(** C8, as the claim is stated, fails on an input workbook that has the
    name of an output file: the first run ends normally and writes its
    predictions over the workbook, and the second run, given the same
    answers, finds a text file where the workbook was and raises
    [ValueError]. *)
Lemma second_run_fails_on_overwritten_input :
  fst (main demo_libs demo_world_input_named_as_output) = Ok tt
  /\ fst (main demo_libs
            (mkWorld ["run/linear_predictions.csv"; "linear"] []
               (fs (snd (main demo_libs demo_world_input_named_as_output)))))
     = Raise ValueError.
Proof. split; vm_compute; reflexivity. Qed.

(** C8, amended. When the last component of the input path is none of the
    three output names of the mode that is read, running the pipeline a
    second time, with the same console input and on the files that the first
    run left, ends as the first run did and leaves every file as the first
    run left it: the parameter file, the prediction file and the figure are
    written again with the same content. *)
Theorem main_second_run_same_files (L : Libs) (p : string)
    (ls out out' : list string) (f : gmap string file) (r : result unit)
    (w1 : world) :
  main L (mkWorld (p :: ls) out f) = (r, w1) ->
  (forall fit_option w0,
      get_user_input (mkWorld (p :: ls) out f) = (Ok (p, fit_option), w0) ->
      basename p <> fit_option +:+ "_fit_parameters.csv"
      /\ basename p <> fit_option +:+ "_predictions.csv"
      /\ basename p <> fit_option +:+ "_fit.png") ->
  exists w2,
    main L (mkWorld (p :: ls) out' (fs w1)) = (r, w2)
    /\ fs w2 = fs w1.
Proof.
  intros Hrun Hname. apply (main_again L p ls out out' f r w1 Hrun).
  pose proof (main_frame L (mkWorld (p :: ls) out f) p) as Hframe.
  rewrite Hrun in Hframe. apply Hframe.
  intros file_path fit_option w0 H0.
  pose proof (get_user_input_path _ _ _ _ _ _ _ H0) as ->.
  apply basename_is_no_output; [|exact (Hname _ _ H0)].
  apply valid_option_iff. exact (get_user_input_valid _ _ _ _ H0).
Qed.

Lemma main_second_run_same_files_witness :
  exists w2,
    main demo_libs
      (mkWorld ["run/data.xlsx"; "linear"] ["first run"]
         (fs (snd (main demo_libs (demo_world ["run/data.xlsx"; "linear"] demo_sheet)))))
    = (Ok tt, w2)
    /\ fs w2 = fs (snd (main demo_libs (demo_world ["run/data.xlsx"; "linear"] demo_sheet))).
Proof.
  apply (main_second_run_same_files demo_libs "run/data.xlsx" ["linear"] []
           ["first run"] (<["run/data.xlsx" := Workbook demo_sheet]> ∅) (Ok tt)).
  - vm_compute. reflexivity.
  - intros fit_option w0 H. vm_compute in H.
    injection H as <- _. repeat split; discriminate.
Defined.

(** C6. In a run that reads the mode [m], loads the table and makes the
    fit, [main] writes, beside the input file and over whatever was there:
    the file [<m>_fit_parameters.csv], holding the line [a,b] (linear) or
    [a,b,c] (quadratic) and one line with the coefficients; and the file
    [<m>_predictions.csv], holding the line of the five column names and
    one line per row of the table, in the order of the table, which has as
    many rows as the loaded one. The place is given on the text of the
    input path, which is, in one way only ([path_split_unique]), a directory
    that does not end with a slash, the slashes after it and a name without
    slash: for [dir/name] the two files are [dir/<m>_fit_parameters.csv] and
    [dir/<m>_predictions.csv], for a bare [name] they are the bare output
    names, and for a name under the root they are under the root. *)
Theorem main_writes_csv_files (L : Libs) (w w1 w2 w3 : world)
    (file_path fit_option : string) (data data' params : DataFrame) :
  get_user_input w = (Ok (file_path, fit_option), w1) ->
  read_data L file_path w1 = (Ok data, w2) ->
  fit_data L data fit_option w2 = (Ok (data', params), w3) ->
  exists r w' header coeffs dir slashes base,
    main L w = (r, w')
    /\ (fit_option = "linear" /\ header = "a,b" /\ length coeffs = 2%nat
        \/ fit_option = "quadratic" /\ header = "a,b,c" /\ length coeffs = 3%nat)
    /\ rows params = [map CFloat coeffs]
    /\ file_path = dir +:+ slashes +:+ base
    /\ contains sep base = false
    /\ all_char sep slashes = true
    /\ ends_with sep dir = false
    /\ (slashes = "" -> dir = "")
    /\ let folder :=
         if is_empty slashes then ""
         else if is_empty dir then slashes
         else dir +:+ "/" in
       fs w' !! (folder +:+ fit_option +:+ "_fit_parameters.csv")
       = Some (TextFile
                 (header +:+ String newline
                    (csv_line (map (fun c => csv_value L [CFloat c] (CFloat c)) coeffs))))
       /\ fs w' !! (folder +:+ fit_option +:+ "_predictions.csv")
          = Some (TextFile
                    ("Time-Stamp,Temperature/°C,Temperature/°F,Prediction/°C,Prediction/°F"
                     +:+ String newline
                           (concat_text
                              (map (fun r => csv_line (row_texts L (rows data') r))
                                 (rows data')))))
       /\ length (rows data') = length (rows data).
Proof.
  intros H1 H2 H3.
  destruct (main_csv_lookups L _ _ _ _ _ _ _ _ _ H1 H2 H3) as [P1 P2].
  destruct (read_data_ok L _ _ _ _ H2) as (obs & -> & _).
  destruct (fit_data_cleaned_ok L _ _ _ _ _ _ H3)
    as (deg & labels & line & coeffs & Hmode & _ & Hlen & -> & -> & _).
  apply fit_mode_cases in Hmode.
  assert (fit_option = "linear" \/ fit_option = "quadratic") as Hopt
    by (destruct Hmode as [(-> & _)|(-> & _)]; tauto).
  destruct (path_split file_path) as (dir & slashes & base & -> & Hb & Hs & Hd & He).
  rewrite (output_path_split dir slashes base _ Hb Hs Hd He) in P1
    by (destruct Hopt as [-> | ->]; reflexivity).
  rewrite (output_path_split dir slashes base _ Hb Hs Hd He) in P2
    by (destruct Hopt as [-> | ->]; reflexivity).
  exists (fst (main L w)), (snd (main L w)),
         (if String.eqb fit_option "linear" then "a,b" else "a,b,c"), coeffs,
         dir, slashes, base.
  repeat apply conj; try assumption.
  - now destruct (main L w).
  - destruct Hmode as [(-> & _ & ->)|(-> & _ & ->)]; [left|right];
      repeat split; exact Hlen.
  - reflexivity.
  - reflexivity.
  - unfold fit_parameters_name in P1. rewrite P1.
    do 2 f_equal. rewrite csv_text_params.
    destruct Hmode as [(-> & _ & ->)|(-> & _ & ->)]; reflexivity.
  - unfold predictions_name in P2. rewrite P2.
    do 2 f_equal. apply csv_text_augmented.
  - simpl. now rewrite !length_map.
Qed.

Lemma main_writes_csv_files_witness :
  fs (snd (main demo_libs
             (mkWorld ["run/data.xlsx"; "Linear"] []
                (<["run/linear_predictions.csv" := TextFile "old"]>
                   (<["run/data.xlsx" := Workbook demo_sheet]> ∅)))))
    !! "run/linear_predictions.csv"
  = Some (TextFile (csv_text demo_libs (augmented demo_libs demo_obs demo_linear_coeffs)))
  /\ exists r w' header coeffs dir slashes base,
       main demo_libs
         (mkWorld ["run/data.xlsx"; "Linear"] []
            (<["run/linear_predictions.csv" := TextFile "old"]>
               (<["run/data.xlsx" := Workbook demo_sheet]> ∅)))
       = (r, w')
       /\ ("linear" = "linear" /\ header = "a,b" /\ length coeffs = 2%nat
           \/ "linear" = "quadratic" /\ header = "a,b,c" /\ length coeffs = 3%nat)
       /\ rows (params_frame ["a"; "b"] demo_linear_coeffs) = [map CFloat coeffs]
       /\ "run/data.xlsx" = dir +:+ slashes +:+ base
       /\ contains sep base = false
       /\ all_char sep slashes = true
       /\ ends_with sep dir = false
       /\ (slashes = "" -> dir = "")
       /\ let folder :=
            if is_empty slashes then ""
            else if is_empty dir then slashes
            else dir +:+ "/" in
          fs w' !! (folder +:+ "linear" +:+ "_fit_parameters.csv")
          = Some (TextFile
                    (header +:+ String newline
                       (csv_line (map (fun c => csv_value demo_libs [CFloat c] (CFloat c))
                                    coeffs))))
          /\ fs w' !! (folder +:+ "linear" +:+ "_predictions.csv")
             = Some (TextFile
                       ("Time-Stamp,Temperature/°C,Temperature/°F,Prediction/°C,Prediction/°F"
                        +:+ String newline
                              (concat_text
                                 (map (fun r =>
                                         csv_line
                                           (row_texts demo_libs
                                              (rows (augmented demo_libs demo_obs
                                                       demo_linear_coeffs))
                                              r))
                                    (rows (augmented demo_libs demo_obs
                                             demo_linear_coeffs))))))
          /\ length (rows (augmented demo_libs demo_obs demo_linear_coeffs))
             = length (rows (frame_of_obs demo_obs)).
Proof.
  split; [vm_compute; reflexivity|].
  eapply (main_writes_csv_files demo_libs _ _ _ _ "run/data.xlsx" "linear"
            (frame_of_obs demo_obs)
            (augmented demo_libs demo_obs demo_linear_coeffs)
            (params_frame ["a"; "b"] demo_linear_coeffs)).
  - vm_compute. reflexivity.
  - vm_compute. reflexivity.
  - vm_compute. reflexivity.
Defined.




(** * Further properties *)

(** X1. When no line of the input has a lower-case form that is [linear] or
    [quadratic], [get_user_input] asks once per line, printing one line of
    rejection each time, and once more, and ends in [EOFError] with the
    input used up. The rejection of a line of ASCII characters quotes its
    lower-case form. *)
Theorem get_user_input_end_of_input (file_path : string) (lines out : list string)
    (f : gmap string file) :
  Forall (fun l => lower l <> "linear" /\ lower l <> "quadratic") lines ->
  exists echoes : list string,
    get_user_input (mkWorld (file_path :: lines) out f)
    = (Raise EOFError,
       mkWorld []
         (out ++ [prompt_path]
              ++ flat_map (fun e => [prompt_option; e]) echoes
              ++ [prompt_option])
         f)
    /\ Forall2 (fun l e => is_ascii l = true -> e = invalid_option (lower l))
         lines echoes.
Proof.
  intros Hrej. exists (map (fun l => invalid_option (lower l)) lines).
  split; [|apply echoes_of_rejected].
  unfold get_user_input.
  unfold bind at 1, input at 1. cbn [stdin stdout fs].
  unfold bind at 1. cbn [stdin].
  rewrite ask_fit_option_eof.
  - unfold rejection_lines. rewrite flat_map_map. now rewrite <- !app_assoc.
  - eapply Forall_impl; [exact Hrej|]. intros l [N1 N2]. cbv beta.
    destruct (valid_option (lower l)) eqn:E; [|reflexivity].
    apply valid_option_iff in E. tauto.
Qed.

Lemma get_user_input_end_of_input_witness :
  exists echoes : list string,
    get_user_input (mkWorld ("run/data.xlsx" :: ["cubic"; "linear "]) [] ∅)
    = (Raise EOFError,
       mkWorld []
         ([] ++ [prompt_path]
             ++ flat_map (fun e => [prompt_option; e]) echoes
             ++ [prompt_option])
         ∅)
    /\ Forall2 (fun l e => is_ascii l = true -> e = invalid_option (lower l))
         ["cubic"; "linear "] echoes.
Proof.
  apply (get_user_input_end_of_input "run/data.xlsx" ["cubic"; "linear "] [] ∅).
  repeat constructor; discriminate.
Defined.

(** X2. When no file has the path typed at the console, [main] ends in
    [FileNotFoundError], raised by [pd.read_excel], with no file written. *)
Theorem main_missing_file (L : Libs) (w w1 : world) (file_path fit_option : string) :
  get_user_input w = (Ok (file_path, fit_option), w1) ->
  fs w !! file_path = None ->
  main L w = (Raise FileNotFoundError, w1) /\ fs w1 = fs w.
Proof.
  intros H1 Hnone. pose proof (get_user_input_fs _ _ _ H1) as Hfs.
  split; [|exact Hfs].
  unfold main. unfold bind at 1. rewrite H1. cbv zeta.
  unfold bind at 1, read_data, bind at 1, read_excel.
  now rewrite Hfs, Hnone.
Qed.

Lemma main_missing_file_witness :
  main demo_libs (demo_world ["data.xlsx"; "linear"] demo_sheet)
  = (Raise FileNotFoundError,
     mkWorld [] [prompt_path; prompt_option] (fs (demo_world [] demo_sheet)))
  /\ fs (mkWorld [] [prompt_path; prompt_option] (fs (demo_world [] demo_sheet)))
     = fs (demo_world ["data.xlsx"; "linear"] demo_sheet).
Proof.
  apply (main_missing_file demo_libs (demo_world ["data.xlsx"; "linear"] demo_sheet)
           (mkWorld [] [prompt_path; prompt_option] (fs (demo_world [] demo_sheet)))
           "data.xlsx" "linear").
  - reflexivity.
  - vm_compute. reflexivity.
Defined.

(** X3. However [get_user_input] ends, it has changed no file and has only
    added to what is printed. It ends either in [EOFError] with the input
    used up, or with the first line, exactly as typed, as the path and the
    lower-case form of a later line as the mode, which is [linear] or
    [quadratic]; the lines after that one are left unread. *)
Theorem get_user_input_outcome (w w' : world) (r : result (string * string)) :
  get_user_input w = (r, w') ->
  fs w' = fs w
  /\ (exists printed, stdout w' = stdout w ++ printed)
  /\ (r = Raise EOFError /\ stdin w' = []
      \/ exists file_path skipped l,
           r = Ok (file_path, lower l)
           /\ (lower l = "linear" \/ lower l = "quadratic")
           /\ stdin w = file_path :: skipped ++ l :: stdin w').
Proof.
  destruct w as [si so f].
  destruct (get_user_input_by_input si) as (r0 & rest & printed & E & Hcases).
  rewrite E. intros [= <- <-]. cbn [stdin stdout fs].
  split; [reflexivity|]. split; [now exists printed|exact Hcases].
Qed.

Lemma get_user_input_outcome_witness :
  fs (mkWorld [] [prompt_path; prompt_option; invalid_option "both"; prompt_option] ∅)
    = fs (mkWorld [" Run/Data.xlsx"; "both"; "LINEAR"] [] ∅)
  /\ (exists printed,
        stdout (mkWorld [] [prompt_path; prompt_option; invalid_option "both";
                            prompt_option] ∅)
        = stdout (mkWorld [" Run/Data.xlsx"; "both"; "LINEAR"] [] ∅) ++ printed)
  /\ (@Ok (string * string) (" Run/Data.xlsx", "linear") = Raise EOFError
      /\ stdin (mkWorld [] [prompt_path; prompt_option; invalid_option "both";
                            prompt_option] ∅) = []
      \/ exists file_path skipped l,
           Ok (" Run/Data.xlsx", "linear") = Ok (file_path, lower l)
           /\ (lower l = "linear" \/ lower l = "quadratic")
           /\ stdin (mkWorld [" Run/Data.xlsx"; "both"; "LINEAR"] [] ∅)
              = file_path :: skipped
                  ++ l :: stdin (mkWorld [] [prompt_path; prompt_option;
                                             invalid_option "both"; prompt_option] ∅)).
Proof.
  apply (get_user_input_outcome
           (mkWorld [" Run/Data.xlsx"; "both"; "LINEAR"] [] ∅)
           (mkWorld [] [prompt_path; prompt_option; invalid_option "both"; prompt_option] ∅)
           (Ok (" Run/Data.xlsx", "linear"))).
  reflexivity.
Defined.

(** X4. A table that [read_data] returns has the three columns
    [Time-Stamp], [Temperature/°C], [Temperature/°F]; every row of it holds
    a time stamp, a float and a Fahrenheit cell that is not missing; it has
    no more rows than the sheet. Loading changes no file, reads no input and
    prints two lines, the second being the table. *)
Theorem read_data_table_shape (L : Libs) (path : string) (w w' : world)
    (data : DataFrame) :
  read_data L path w = (Ok data, w') ->
  columns data = [col_TimeStamp; col_TempC; col_TempF]
  /\ Forall (fun r => exists t c f, r = [CTime t; CFloat c; f] /\ isna f = false)
       (rows data)
  /\ (exists sheet,
        fs w !! path = Some (Workbook sheet)
        /\ (length (rows data) <= length sheet)%nat)
  /\ fs w' = fs w
  /\ stdin w' = stdin w
  /\ stdout w' = stdout w ++ [String newline "Data extracted:"; frame_repr L data].
Proof.
  destruct (fs w !! path) as [[sheet|text|bytes]|] eqn:E.
  - rewrite (read_data_sheet L path w sheet E). intros H.
    apply loaded_ok in H as (_ & _ & stamps & celsius & _ & _ & -> & ->).
    cbn [columns rows frame_of_obs stdin stdout fs].
    repeat split.
    + apply (observations_shape L), kept_rows_valid.
    + exists sheet. split; [reflexivity|]. rewrite length_map.
      pose proof (observations_length stamps celsius (kept_rows L sheet)).
      pose proof (kept_rows_length L sheet). lia.
  - destruct (read_data_no_workbook L path w) as [e ->]; [congruence|discriminate].
  - destruct (read_data_no_workbook L path w) as [e ->]; [congruence|discriminate].
  - destruct (read_data_no_workbook L path w) as [e ->]; [congruence|discriminate].
Qed.

Lemma read_data_table_shape_witness :
  columns (frame_of_obs demo_obs) = [col_TimeStamp; col_TempC; col_TempF]
  /\ Forall (fun r => exists t c f, r = [CTime t; CFloat c; f] /\ isna f = false)
       (rows (frame_of_obs demo_obs))
  /\ (exists sheet,
        fs (demo_world [] demo_sheet) !! "run/data.xlsx" = Some (Workbook sheet)
        /\ (length (rows (frame_of_obs demo_obs)) <= length sheet)%nat)
  /\ fs (snd (read_data demo_libs "run/data.xlsx" (demo_world [] demo_sheet)))
     = fs (demo_world [] demo_sheet)
  /\ stdin (snd (read_data demo_libs "run/data.xlsx" (demo_world [] demo_sheet)))
     = stdin (demo_world [] demo_sheet)
  /\ stdout (snd (read_data demo_libs "run/data.xlsx" (demo_world [] demo_sheet)))
     = stdout (demo_world [] demo_sheet)
       ++ [String newline "Data extracted:"; frame_repr demo_libs (frame_of_obs demo_obs)].
Proof.
  apply (read_data_table_shape demo_libs "run/data.xlsx" (demo_world [] demo_sheet)).
  vm_compute. reflexivity.
Defined.

(** X5. When [read_data] raises, it has printed nothing and changed
    nothing. The exception is [FileNotFoundError] when the path holds no
    file, [KeyError] when it holds a workbook whose sheet has no row, and
    [ValueError] when it holds a PNG image or a text that does not start
    like an Excel or zip file. *)
Theorem read_data_failure (L : Libs) (path : string) (w w' : world) (e : exn) :
  read_data L path w = (Raise e, w') ->
  w' = w
  /\ (fs w !! path = None -> e = FileNotFoundError)
  /\ (fs w !! path = Some (Workbook []) -> e = KeyError)
  /\ (forall bytes, fs w !! path = Some (ImageFile bytes) -> e = ValueError)
  /\ (forall text,
        fs w !! path = Some (TextFile text) -> has_excel_signature text = false ->
        e = ValueError).
Proof.
  intros H. split; [exact (read_data_raises L _ _ _ _ H)|]. revert H.
  unfold read_data, bind at 1, read_excel.
  repeat split.
  - intros E. rewrite E in H. now injection H as <-.
  - intros E. rewrite E in H. now injection H as <-.
  - intros bytes E. rewrite E in H. now injection H as <-.
  - intros text E S. rewrite E, S in H. now injection H as <-.
Qed.

Lemma read_data_failure_witness :
  demo_world_text_file = demo_world_text_file
  /\ (fs demo_world_text_file !! "notes.txt" = None -> ValueError = FileNotFoundError)
  /\ (fs demo_world_text_file !! "notes.txt" = Some (Workbook [])
      -> ValueError = KeyError)
  /\ (forall bytes,
        fs demo_world_text_file !! "notes.txt" = Some (ImageFile bytes) ->
        ValueError = ValueError)
  /\ (forall text,
        fs demo_world_text_file !! "notes.txt" = Some (TextFile text) ->
        has_excel_signature text = false ->
        ValueError = ValueError).
Proof.
  apply (read_data_failure demo_libs "notes.txt" demo_world_text_file
           demo_world_text_file ValueError).
  reflexivity.
Defined.

(** X6. On a table that has no column [Time-Stamp], [fit_data] raises
    [KeyError] at once, whatever the mode: nothing is printed and nothing
    is changed. *)
Theorem fit_data_missing_time_column (L : Libs) (data : DataFrame)
    (fit_option : string) (w : world) :
  ~ In col_TimeStamp (columns data) ->
  fit_data L data fit_option w = (Raise KeyError, w).
Proof.
  intros H. unfold fit_data, get_col.
  now rewrite (col_index_absent _ _ H).
Qed.

Lemma fit_data_missing_time_column_witness :
  fit_data demo_libs (mkDataFrame ["when"; col_TempC] [[CTime 0; CFloat 10]])
    "linear" (demo_world [] demo_sheet)
  = (Raise KeyError, demo_world [] demo_sheet).
Proof.
  apply (fit_data_missing_time_column demo_libs
           (mkDataFrame ["when"; col_TempC] [[CTime 0; CFloat 10]])
           "linear" (demo_world [] demo_sheet)).
  cbn. intros [H|[H|[]]]; discriminate.
Defined.

(** X7. On a table without rows that has the columns [Time-Stamp] and
    [Temperature/°C], [fit_data] in mode [linear] or [quadratic] raises
    [TypeError], the refusal of [np.polyfit], before anything is printed:
    the solver is not reached. *)
Theorem fit_data_no_rows (L : Libs) (data : DataFrame) (fit_option : string)
    (w : world) :
  rows data = [] ->
  In col_TimeStamp (columns data) ->
  In col_TempC (columns data) ->
  fit_option = "linear" \/ fit_option = "quadratic" ->
  fit_data L data fit_option w = (Raise TypeError, w).
Proof.
  intros Hrows Ht Hc Hmode. unfold fit_data, get_col.
  destruct (col_index_present _ _ Ht) as [i ->].
  destruct (col_index_present _ _ Hc) as [j ->].
  rewrite Hrows. cbn [map result_bind datetime64_values float64_values result_map].
  do 2 mstep. cbn [map].
  destruct Hmode as [-> | ->]; reflexivity.
Qed.

Lemma fit_data_no_rows_witness :
  fit_data demo_libs_no_solution (frame_of_obs []) "quadratic" (demo_world [] demo_sheet)
  = (Raise TypeError, demo_world [] demo_sheet).
Proof.
  apply (fit_data_no_rows demo_libs_no_solution (frame_of_obs []) "quadratic"
           (demo_world [] demo_sheet)).
  - reflexivity.
  - cbn. tauto.
  - cbn. tauto.
  - right. reflexivity.
Defined.

(** X8. Fitting a table that [fit_data] has fitted before, whatever
    coefficients made its predictions, gives what fitting the cleaned table
    gives: the same outcome, the same coefficients and the same table. The
    two prediction columns are replaced, not added a second time. *)
Theorem fit_data_again (L : Libs) (obs : list observation) (old : list float)
    (fit_option : string) (w : world) :
  fit_data L (augmented L obs old) fit_option w
  = fit_data L (frame_of_obs obs) fit_option w.
Proof.
  rewrite fit_data_cleaned. unfold fit_data, fit_mode.
  rewrite !get_col_augmented_original by (cbn; tauto).
  rewrite get_col_times, get_col_celsius. cbn [result_bind].
  rewrite datetime64_values_times, float64_values_floats.
  do 2 mstep. rewrite map_map. fold (x_num_of L obs).
  destruct (String.eqb fit_option "linear");
    [|destruct (String.eqb fit_option "quadratic"); [|reflexivity]];
    rewrite bind_bind;
    (destruct (polyfit L (x_num_of L obs) (map obs_celsius obs) _) as [params|e];
       [|reflexivity]);
    mstep; rewrite bind_bind; do 2 mstep;
    rewrite set_col_replace_prediction_c; mstep;
    rewrite get_col_refitted_c; cbn [result_bind];
    rewrite (float64_values_floats (prediction L params)); mstep;
    rewrite set_col_replace_prediction_f; mstep;
    unfold frame_of_row; rewrite length_map;
    (destruct (length params =? _)%nat; reflexivity).
Qed.

(** X9. When the fit raises, [main] ends in that exception and no file has
    been written: the writers run only after [fit_data] has returned. *)
Theorem main_fit_failure_writes_nothing (L : Libs) (w w1 w2 w3 : world)
    (file_path fit_option : string) (data : DataFrame) (e : exn) :
  get_user_input w = (Ok (file_path, fit_option), w1) ->
  read_data L file_path w1 = (Ok data, w2) ->
  fit_data L data fit_option w2 = (Raise e, w3) ->
  main L w = (Raise e, w3) /\ fs w3 = fs w.
Proof.
  intros H1 H2 H3. split; [exact (main_fit_raises L _ _ _ _ _ _ _ _ H1 H2 H3)|].
  pose proof (get_user_input_fs _ _ _ H1) as F1.
  destruct (read_data_ok L _ _ _ _ H2) as (obs & -> & F2).
  destruct (fit_data_cleaned_world L _ _ _ _ _ H3) as [F3 _].
  congruence.
Qed.

Lemma main_fit_failure_writes_nothing_witness :
  main demo_libs_no_solution (demo_world ["run/data.xlsx"; "linear"] demo_sheet)
  = (Raise LinAlgError,
     mkWorld [] [prompt_path; prompt_option; String newline "Data extracted:";
                 frame_repr demo_libs_no_solution (frame_of_obs demo_obs)]
       (fs (demo_world [] demo_sheet)))
  /\ fs (mkWorld [] [prompt_path; prompt_option; String newline "Data extracted:";
                     frame_repr demo_libs_no_solution (frame_of_obs demo_obs)]
           (fs (demo_world [] demo_sheet)))
     = fs (demo_world ["run/data.xlsx"; "linear"] demo_sheet).
Proof.
  eapply (main_fit_failure_writes_nothing demo_libs_no_solution _ _ _ _
            "run/data.xlsx" "linear" (frame_of_obs demo_obs)).
  - vm_compute. reflexivity.
  - vm_compute. reflexivity.
  - vm_compute. reflexivity.
Defined.

(** X10. When the figure fails to render, [main] ends in that exception
    with both CSV files already written and the figure file as it was:
    a failed plot leaves the run half written. *)
Theorem main_plot_failure_keeps_csv (L : Libs) (w w1 w2 w3 : world)
    (file_path fit_option : string) (data data' params : DataFrame) (e : exn) :
  get_user_input w = (Ok (file_path, fit_option), w1) ->
  read_data L file_path w1 = (Ok data, w2) ->
  fit_data L data fit_option w2 = (Ok (data', params), w3) ->
  render_figure L data' fit_option = Raise e ->
  exists w',
    main L w = (Raise e, w')
    /\ fs w' !! path_join (dirname file_path) (fit_option +:+ "_fit_parameters.csv")
       = Some (TextFile (csv_text L params))
    /\ fs w' !! path_join (dirname file_path) (fit_option +:+ "_predictions.csv")
       = Some (TextFile (csv_text L data'))
    /\ fs w' !! path_join (dirname file_path) (fit_option +:+ "_fit.png")
       = fs w !! path_join (dirname file_path) (fit_option +:+ "_fit.png").
Proof.
  intros H1 H2 H3 Hfig.
  pose proof (main_stages L _ _ _ _ _ _ _ _ _ H1 H2 H3) as Hmain.
  cbv zeta in Hmain. rewrite Hfig in Hmain.
  destruct (main_csv_lookups L _ _ _ _ _ _ _ _ _ H1 H2 H3) as [P1 P2].
  rewrite Hmain in P1, P2. cbn [snd] in P1, P2.
  eexists. split; [exact Hmain|]. split; [exact P1|]. split; [exact P2|].
  cbn [fs]. unfold with_csv_files.
  pose proof (get_user_input_fs _ _ _ H1) as F1.
  destruct (read_data_ok L _ _ _ _ H2) as (obs & -> & F2).
  destruct (fit_data_cleaned_world L _ _ _ _ _ H3) as [F3 _].
  rewrite !lookup_insert_ne
    by (apply path_join_names_differ; reflexivity || discriminate).
  congruence.
Qed.

Lemma main_plot_failure_keeps_csv_witness :
  exists w',
    main demo_libs_no_figure (demo_world ["run/data.xlsx"; "linear"] demo_sheet)
    = (Raise ValueError, w')
    /\ fs w' !! path_join (dirname "run/data.xlsx") ("linear" +:+ "_fit_parameters.csv")
       = Some (TextFile (csv_text demo_libs_no_figure
                           (params_frame ["a"; "b"] demo_linear_coeffs)))
    /\ fs w' !! path_join (dirname "run/data.xlsx") ("linear" +:+ "_predictions.csv")
       = Some (TextFile (csv_text demo_libs_no_figure
                           (augmented demo_libs_no_figure demo_obs demo_linear_coeffs)))
    /\ fs w' !! path_join (dirname "run/data.xlsx") ("linear" +:+ "_fit.png")
       = fs (demo_world ["run/data.xlsx"; "linear"] demo_sheet)
           !! path_join (dirname "run/data.xlsx") ("linear" +:+ "_fit.png").
Proof.
  eapply (main_plot_failure_keeps_csv demo_libs_no_figure _ _ _ _
            "run/data.xlsx" "linear" (frame_of_obs demo_obs)).
  - vm_compute. reflexivity.
  - vm_compute. reflexivity.
  - vm_compute. reflexivity.
  - reflexivity.
Defined.

(** X11. When the figure renders, [main] ends normally and the file
    [<mode>_fit.png], beside the input file, holds the rendering of the
    table that went into the prediction file. The input path is, in one way
    only, a directory that does not end with a slash, the slashes after it
    and a name without slash: for [dir/name] the figure is
    [dir/<mode>_fit.png]. *)
Theorem main_writes_figure (L : Libs) (w w1 w2 w3 : world)
    (file_path fit_option png : string) (data data' params : DataFrame) :
  get_user_input w = (Ok (file_path, fit_option), w1) ->
  read_data L file_path w1 = (Ok data, w2) ->
  fit_data L data fit_option w2 = (Ok (data', params), w3) ->
  render_figure L data' fit_option = Ok png ->
  exists w' dir slashes base,
    main L w = (Ok tt, w')
    /\ file_path = dir +:+ slashes +:+ base
    /\ contains sep base = false
    /\ all_char sep slashes = true
    /\ ends_with sep dir = false
    /\ (slashes = "" -> dir = "")
    /\ let folder :=
         if is_empty slashes then ""
         else if is_empty dir then slashes
         else dir +:+ "/" in
       fs w' !! (folder +:+ fit_option +:+ "_fit.png") = Some (ImageFile png)
       /\ fs w' !! (folder +:+ fit_option +:+ "_predictions.csv")
          = Some (TextFile (csv_text L data')).
Proof.
  intros H1 H2 H3 Hfig.
  pose proof (main_stages L _ _ _ _ _ _ _ _ _ H1 H2 H3) as Hmain.
  cbv zeta in Hmain. rewrite Hfig in Hmain.
  destruct (main_csv_lookups L _ _ _ _ _ _ _ _ _ H1 H2 H3) as [_ P2].
  rewrite Hmain in P2. cbn [snd] in P2.
  assert (fit_option = "linear" \/ fit_option = "quadratic") as Hopt
    by exact (proj1 (valid_option_iff _) (get_user_input_valid _ _ _ _ H1)).
  destruct (path_split file_path) as (dir & slashes & base & -> & Hb & Hs & Hd & He).
  set (folder := if is_empty slashes then EmptyString
                 else if is_empty dir then slashes else dir +:+ "/").
  assert (path_join (dirname (dir +:+ slashes +:+ base)) (figure_name fit_option)
          = folder +:+ fit_option +:+ "_fit.png") as Efig
    by (apply output_path_split; try assumption;
        destruct Hopt as [-> | ->]; reflexivity).
  assert (path_join (dirname (dir +:+ slashes +:+ base)) (predictions_name fit_option)
          = folder +:+ fit_option +:+ "_predictions.csv") as Epred
    by (apply output_path_split; try assumption;
        destruct Hopt as [-> | ->]; reflexivity).
  rewrite Efig in Hmain, P2. rewrite Epred in P2.
  eexists. exists dir, slashes, base.
  repeat apply conj; try assumption; try reflexivity.
  - exact Hmain.
  - apply lookup_insert_eq.
  - exact P2.
Qed.

Lemma main_writes_figure_witness :
  fs (snd (main demo_libs (demo_world ["run/data.xlsx"; "linear"] demo_sheet)))
    !! "run/linear_fit.png"
  = Some (ImageFile "figure: linear")
  /\ exists w' dir slashes base,
       main demo_libs (demo_world ["run/data.xlsx"; "linear"] demo_sheet) = (Ok tt, w')
       /\ "run/data.xlsx" = dir +:+ slashes +:+ base
       /\ contains sep base = false
       /\ all_char sep slashes = true
       /\ ends_with sep dir = false
       /\ (slashes = "" -> dir = "")
       /\ let folder :=
            if is_empty slashes then ""
            else if is_empty dir then slashes
            else dir +:+ "/" in
          fs w' !! (folder +:+ "linear" +:+ "_fit.png")
          = Some (ImageFile "figure: linear")
          /\ fs w' !! (folder +:+ "linear" +:+ "_predictions.csv")
             = Some (TextFile (csv_text demo_libs
                                 (augmented demo_libs demo_obs demo_linear_coeffs))).
Proof.
  split; [vm_compute; reflexivity|].
  eapply (main_writes_figure demo_libs _ _ _ _ "run/data.xlsx" "linear"
            "figure: linear" (frame_of_obs demo_obs)).
  - vm_compute. reflexivity.
  - vm_compute. reflexivity.
  - vm_compute. reflexivity.
  - reflexivity.
Defined.

(** X12. For every mode text and folder, the parameter file and the
    prediction file have two different paths: after both writers have run,
    each file holds what its writer wrote, and running the writers in the
    other order leaves the same files. *)
Theorem csv_writers_do_not_collide (L : Libs) (params data : DataFrame)
    (fit_option data_folder_path : string) (w : world) :
  let after :=
    fs (snd (save_predictions L data fit_option data_folder_path
               (snd (save_fit_params L params fit_option data_folder_path w)))) in
  after !! path_join data_folder_path (fit_option +:+ "_fit_parameters.csv")
    = Some (TextFile (csv_text L params))
  /\ after !! path_join data_folder_path (fit_option +:+ "_predictions.csv")
    = Some (TextFile (csv_text L data))
  /\ after
     = fs (snd (save_fit_params L params fit_option data_folder_path
                  (snd (save_predictions L data fit_option data_folder_path w)))).
Proof.
  assert (path_join data_folder_path (predictions_name fit_option)
          <> path_join data_folder_path (fit_parameters_name fit_option)) as N
    by (apply path_join_names_differ; reflexivity || discriminate).
  unfold save_fit_params, save_predictions, to_csv.
  rewrite !bind_write_file. cbn [stdin stdout fs].
  rewrite !bind_print. cbn [print snd stdin stdout fs].
  repeat split.
  - rewrite lookup_insert_ne by exact N. apply lookup_insert_eq.
  - apply lookup_insert_eq.
  - apply insert_insert_ne. exact N.
Qed.

(** X13. Whatever the outcome of a run whose input gives the mode [m], a
    path whose last component is none of the three output names of [m]
    holds after [main] what it held before: the run writes no file of
    another name, in any directory. *)
Theorem main_changes_only_outputs (L : Libs) (w w1 : world)
    (file_path fit_option q : string) :
  get_user_input w = (Ok (file_path, fit_option), w1) ->
  basename q <> fit_option +:+ "_fit_parameters.csv" ->
  basename q <> fit_option +:+ "_predictions.csv" ->
  basename q <> fit_option +:+ "_fit.png" ->
  fs (snd (main L w)) !! q = fs w !! q.
Proof.
  intros H1 Q1 Q2 Q3. apply main_frame.
  intros p m w1' H1'. rewrite H1 in H1'. inversion H1'; subst.
  apply basename_is_no_output; [|repeat split; assumption].
  apply valid_option_iff. exact (get_user_input_valid _ _ _ _ H1).
Qed.

Lemma main_changes_only_outputs_witness :
  fs (snd (main demo_libs
             (mkWorld ["run/data.xlsx"; "linear"] []
                (<["run/quadratic_fit.png" := ImageFile "old"]>
                   (<["run/data.xlsx" := Workbook demo_sheet]> ∅)))))
    !! "run/quadratic_fit.png"
  = fs (mkWorld ["run/data.xlsx"; "linear"] []
          (<["run/quadratic_fit.png" := ImageFile "old"]>
             (<["run/data.xlsx" := Workbook demo_sheet]> ∅)))
      !! "run/quadratic_fit.png".
Proof.
  eapply (main_changes_only_outputs demo_libs _ _ "run/data.xlsx" "linear").
  - vm_compute. reflexivity.
  - vm_compute. discriminate.
  - vm_compute. discriminate.
  - vm_compute. discriminate.
Defined.

(** X14. Two runs with the same console input, in two worlds that agree on
    the file named on the first line, end in the same way, leave the same
    input unread, print the same lines and write the same files: each path
    either holds the same in both worlds afterwards or is untouched in
    both. Other files and earlier output have no influence. *)
Theorem main_same_input_same_run (L : Libs) (p : string) (ls : list string)
    (w w' : world) :
  stdin w = p :: ls -> stdin w' = p :: ls ->
  fs w !! p = fs w' !! p ->
  fst (main L w) = fst (main L w')
  /\ stdin (snd (main L w)) = stdin (snd (main L w'))
  /\ (exists printed,
        stdout (snd (main L w)) = stdout w ++ printed
        /\ stdout (snd (main L w')) = stdout w' ++ printed)
  /\ (forall q,
        fs (snd (main L w)) !! q = fs (snd (main L w')) !! q
        \/ (fs (snd (main L w)) !! q = fs w !! q
            /\ fs (snd (main L w')) !! q = fs w' !! q)).
Proof.
  intros Hin Hin' Hfile.
  destruct (main_determined L p ls (fs w !! p)) as (r & rest & printed & ws & E).
  rewrite (E w Hin eq_refl), (E w' Hin' (eq_sym Hfile)). cbn [fst snd stdin stdout fs].
  repeat split.
  - now exists printed.
  - intros q. rewrite !lookup_apply_writes.
    destruct (lookup_after_cases q ws) as [H|[v H]]; rewrite !H; tauto.
Qed.

Lemma main_same_input_same_run_witness :
  fst (main demo_libs (demo_world ["run/data.xlsx"; "linear"] demo_sheet))
  = fst (main demo_libs
           (mkWorld ["run/data.xlsx"; "linear"] ["earlier output"]
              (<["run/linear_fit.png" := ImageFile "old"]>
                 (<["run/data.xlsx" := Workbook demo_sheet]> ∅))))
  /\ stdin (snd (main demo_libs (demo_world ["run/data.xlsx"; "linear"] demo_sheet)))
     = stdin (snd (main demo_libs
                     (mkWorld ["run/data.xlsx"; "linear"] ["earlier output"]
                        (<["run/linear_fit.png" := ImageFile "old"]>
                           (<["run/data.xlsx" := Workbook demo_sheet]> ∅)))))
  /\ (exists printed,
        stdout (snd (main demo_libs (demo_world ["run/data.xlsx"; "linear"] demo_sheet)))
        = stdout (demo_world ["run/data.xlsx"; "linear"] demo_sheet) ++ printed
        /\ stdout (snd (main demo_libs
                          (mkWorld ["run/data.xlsx"; "linear"] ["earlier output"]
                             (<["run/linear_fit.png" := ImageFile "old"]>
                                (<["run/data.xlsx" := Workbook demo_sheet]> ∅)))))
           = stdout (mkWorld ["run/data.xlsx"; "linear"] ["earlier output"]
                       (<["run/linear_fit.png" := ImageFile "old"]>
                          (<["run/data.xlsx" := Workbook demo_sheet]> ∅)))
             ++ printed)
  /\ (forall q,
        fs (snd (main demo_libs (demo_world ["run/data.xlsx"; "linear"] demo_sheet))) !! q
        = fs (snd (main demo_libs
                     (mkWorld ["run/data.xlsx"; "linear"] ["earlier output"]
                        (<["run/linear_fit.png" := ImageFile "old"]>
                           (<["run/data.xlsx" := Workbook demo_sheet]> ∅))))) !! q
        \/ (fs (snd (main demo_libs (demo_world ["run/data.xlsx"; "linear"] demo_sheet)))
              !! q
            = fs (demo_world ["run/data.xlsx"; "linear"] demo_sheet) !! q
            /\ fs (snd (main demo_libs
                          (mkWorld ["run/data.xlsx"; "linear"] ["earlier output"]
                             (<["run/linear_fit.png" := ImageFile "old"]>
                                (<["run/data.xlsx" := Workbook demo_sheet]> ∅))))) !! q
               = fs (mkWorld ["run/data.xlsx"; "linear"] ["earlier output"]
                       (<["run/linear_fit.png" := ImageFile "old"]>
                          (<["run/data.xlsx" := Workbook demo_sheet]> ∅))) !! q)).
Proof.
  apply (main_same_input_same_run demo_libs "run/data.xlsx" ["linear"]).
  - reflexivity.
  - reflexivity.
  - vm_compute. reflexivity.
Defined.

(** X15. When the path typed at the console ends in [.xlsx], no run
    touches the input file, however it ends; so a second run with the same
    console input ends as the first did and leaves every file as the first
    left it. *)
Theorem main_twice_on_xlsx (L : Libs) (base : string) (ls out out' : list string)
    (f : gmap string file) (r : result unit) (w1 : world) :
  main L (mkWorld ((base +:+ ".xlsx") :: ls) out f) = (r, w1) ->
  fs w1 !! (base +:+ ".xlsx") = f !! (base +:+ ".xlsx")
  /\ exists w2,
       main L (mkWorld ((base +:+ ".xlsx") :: ls) out' (fs w1)) = (r, w2)
       /\ fs w2 = fs w1.
Proof.
  intros Hrun.
  assert (fs w1 !! (base +:+ ".xlsx") = f !! (base +:+ ".xlsx")) as Hsame.
  { pose proof (main_frame L (mkWorld ((base +:+ ".xlsx") :: ls) out f)
                  (base +:+ ".xlsx")) as Hframe.
    rewrite Hrun in Hframe. apply Hframe.
    intros file_path fit_option w' Hin.
    apply get_user_input_path in Hin. subst file_path.
    apply xlsx_is_no_output. }
  split; [exact Hsame|].
  destruct (main_determined L (base +:+ ".xlsx") ls (f !! (base +:+ ".xlsx")))
    as (r0 & rest & printed & ws & E).
  rewrite (E (mkWorld ((base +:+ ".xlsx") :: ls) out f) eq_refl eq_refl) in Hrun.
  inversion Hrun; subst r0 w1. cbn [fs] in *.
  eexists. split.
  - apply (E (mkWorld ((base +:+ ".xlsx") :: ls) out' (apply_writes f ws))
             eq_refl Hsame).
  - cbn [fs]. apply apply_writes_twice.
Qed.

Lemma main_twice_on_xlsx_witness :
  fs (snd (main demo_libs (demo_world ["run/data.xlsx"; "quadratic"] demo_sheet)))
    !! ("run/data" +:+ ".xlsx")
  = (<["run/data.xlsx" := Workbook demo_sheet]> ∅ : gmap string file)
      !! ("run/data" +:+ ".xlsx")
  /\ exists w2,
       main demo_libs
         (mkWorld (("run/data" +:+ ".xlsx") :: ["quadratic"]) ["first run"]
            (fs (snd (main demo_libs
                        (demo_world ["run/data.xlsx"; "quadratic"] demo_sheet)))))
       = (Ok tt, w2)
       /\ fs w2
          = fs (snd (main demo_libs
                       (demo_world ["run/data.xlsx"; "quadratic"] demo_sheet))).
Proof.
  apply (main_twice_on_xlsx demo_libs "run/data" ["quadratic"] [] ["first run"]
           (<["run/data.xlsx" := Workbook demo_sheet]> ∅) (Ok tt)).
  vm_compute. reflexivity.
Defined.

(** X16. When the path typed at the console has no slash, its directory is
    the empty text and [os.path.join] adds no slash: the two CSV files are
    written under their bare names [<mode>_fit_parameters.csv] and
    [<mode>_predictions.csv], that is, into the working directory. *)
Theorem main_writes_beside_plain_name (L : Libs) (w w1 w2 w3 : world)
    (file_path fit_option : string) (data data' params : DataFrame) :
  contains sep file_path = false ->
  get_user_input w = (Ok (file_path, fit_option), w1) ->
  read_data L file_path w1 = (Ok data, w2) ->
  fit_data L data fit_option w2 = (Ok (data', params), w3) ->
  dirname file_path = EmptyString
  /\ fs (snd (main L w)) !! (fit_option +:+ "_fit_parameters.csv")
     = Some (TextFile (csv_text L params))
  /\ fs (snd (main L w)) !! (fit_option +:+ "_predictions.csv")
     = Some (TextFile (csv_text L data')).
Proof.
  intros Hplain H1 H2 H3.
  destruct (main_csv_lookups L _ _ _ _ _ _ _ _ _ H1 H2 H3) as [P1 P2].
  rewrite (dirname_plain file_path Hplain), !path_join_empty in P1, P2.
  split; [now apply dirname_plain|]. split; assumption.
Qed.

Lemma main_writes_beside_plain_name_witness :
  dirname "data.xlsx" = EmptyString
  /\ fs (snd (main demo_libs
                (mkWorld ["data.xlsx"; "linear"] []
                   (<["data.xlsx" := Workbook demo_sheet]> ∅))))
       !! ("linear" +:+ "_fit_parameters.csv")
     = Some (TextFile (csv_text demo_libs (params_frame ["a"; "b"] demo_linear_coeffs)))
  /\ fs (snd (main demo_libs
                (mkWorld ["data.xlsx"; "linear"] []
                   (<["data.xlsx" := Workbook demo_sheet]> ∅))))
       !! ("linear" +:+ "_predictions.csv")
     = Some (TextFile (csv_text demo_libs
                         (augmented demo_libs demo_obs demo_linear_coeffs))).
Proof.
  eapply (main_writes_beside_plain_name demo_libs _ _ _ _ "data.xlsx" "linear"
            (frame_of_obs demo_obs)).
  - reflexivity.
  - vm_compute. reflexivity.
  - vm_compute. reflexivity.
  - vm_compute. reflexivity.
Defined.

(** X17. When the input file is itself named as the prediction file of the
    run ([<mode>_predictions.csv] in its own directory), a run that makes
    the fit overwrites its input with the predictions, and a second run with
    the same console input ends in [ValueError]: the file is no workbook any
    more. *)
Theorem main_overwrites_input_named_as_output (L : Libs) (file_path fit_option : string)
    (ls out out' : list string) (f : gmap string file) (w1 w2 w3 : world)
    (data data' params : DataFrame) :
  get_user_input (mkWorld (file_path :: ls) out f) = (Ok (file_path, fit_option), w1) ->
  read_data L file_path w1 = (Ok data, w2) ->
  fit_data L data fit_option w2 = (Ok (data', params), w3) ->
  file_path = path_join (dirname file_path) (fit_option +:+ "_predictions.csv") ->
  fs (snd (main L (mkWorld (file_path :: ls) out f))) !! file_path
    = Some (TextFile (csv_text L data'))
  /\ exists w',
       main L (mkWorld (file_path :: ls) out'
                 (fs (snd (main L (mkWorld (file_path :: ls) out f)))))
       = (Raise ValueError, w').
Proof.
  intros H1 H2 H3 Hname.
  destruct (main_csv_lookups L _ _ _ _ _ _ _ _ _ H1 H2 H3) as [_ P2].
  change (predictions_name fit_option) with (fit_option +:+ "_predictions.csv") in P2.
  rewrite <- Hname in P2. split; [exact P2|].
  set (after := fs (snd (main L (mkWorld (file_path :: ls) out f)))) in *.
  destruct (get_user_input_by_input (file_path :: ls))
    as (r & rest & printed & E & _).
  rewrite E in H1. inversion H1; subst r.
  eexists. eapply main_read_raises; [apply E|].
  destruct (read_data_ok L _ _ _ _ H2) as (obs & -> & _).
  destruct (fit_data_cleaned_ok L _ _ _ _ _ _ H3)
    as (deg & labels & line & coeffs & _ & _ & _ & -> & _ & _).
  unfold read_data, bind at 1, read_excel. cbn [fs]. rewrite P2.
  now rewrite csv_text_augmented.
Qed.

Lemma main_overwrites_input_named_as_output_witness :
  fs (snd (main demo_libs
             (mkWorld ("run/linear_predictions.csv" :: ["linear"]) []
                (<["run/linear_predictions.csv" := Workbook demo_sheet]> ∅))))
    !! "run/linear_predictions.csv"
  = Some (TextFile (csv_text demo_libs (augmented demo_libs demo_obs demo_linear_coeffs)))
  /\ exists w',
       main demo_libs
         (mkWorld ("run/linear_predictions.csv" :: ["linear"]) ["first run"]
            (fs (snd (main demo_libs
                        (mkWorld ("run/linear_predictions.csv" :: ["linear"]) []
                           (<["run/linear_predictions.csv" := Workbook demo_sheet]> ∅))))))
       = (Raise ValueError, w').
Proof.
  eapply (main_overwrites_input_named_as_output demo_libs
            "run/linear_predictions.csv" "linear" ["linear"] [] ["first run"]
            (<["run/linear_predictions.csv" := Workbook demo_sheet]> ∅) _ _ _
            (frame_of_obs demo_obs)
            (augmented demo_libs demo_obs demo_linear_coeffs)).
  - vm_compute. reflexivity.
  - vm_compute. reflexivity.
  - vm_compute. reflexivity.
  - reflexivity.
Defined.

(** X18. The third column is not used by the fit, yet a row whose
    Fahrenheit cell is missing is dropped with the others: on a sheet with
    rows whose Fahrenheit cells are all missing no row is left, and the run
    ends in [TypeError] with no file written, whatever the other two
    columns hold and whatever the library routines are. The [TypeError] is
    that of [np.polyfit] on the empty table, or that of the cast to float64
    when the Celsius column is a column of dates. *)
Theorem main_without_fahrenheit_values (L : Libs) (w w1 : world)
    (file_path fit_option : string) (sheet : list (cell * cell * cell)) :
  get_user_input w = (Ok (file_path, fit_option), w1) ->
  fs w !! file_path = Some (Workbook sheet) ->
  sheet <> [] ->
  Forall (fun r => isna r.2 = true) sheet ->
  exists w', main L w = (Raise TypeError, w') /\ fs w' = fs w.
Proof.
  intros H1 Hfile Hne Hall.
  destruct (datetime64_column L (map (fun r => r.1.2) sheet)) eqn:D.
  - pose proof (get_user_input_fs _ _ _ H1) as F1.
    assert (fs w1 !! file_path = Some (Workbook sheet)) as Hfile1 by now rewrite F1.
    pose proof (read_data_dated L file_path w1 sheet Hfile1 D) as Hread.
    assert (List.filter complete_row sheet = []) as E.
    { clear -Hall. induction Hall as [|r sheet' Hr _ IH]; [reflexivity|].
      cbn [List.filter]. unfold complete_row at 1, notna. rewrite Hr.
      cbn [negb]. now rewrite andb_false_r. }
    rewrite E in Hread. cbn in Hread.
    exists w1. split; [|exact F1].
    exact (main_read_raises L _ _ _ _ _ _ H1 Hread).
  - apply (main_without_valid_rows L w file_path fit_option w1 sheet H1).
    + exact (get_user_input_valid _ _ _ _ H1).
    + exact Hfile.
    + exact Hne.
    + exact D.
    + clear -Hall. unfold kept_rows.
      induction Hall as [|r sheet' Hr _ IH]; [reflexivity|].
      cbn [List.filter]. unfold valid_row at 1, notna. rewrite Hr.
      cbn [negb]. rewrite andb_false_r. cbn [andb]. exact IH.
Qed.

Lemma main_without_fahrenheit_values_witness :
  exists w',
    main demo_libs (demo_world ["run/data.xlsx"; "linear"] demo_sheet_no_fahrenheit)
    = (Raise TypeError, w')
    /\ fs w' = fs (demo_world ["run/data.xlsx"; "linear"] demo_sheet_no_fahrenheit).
Proof.
  eapply (main_without_fahrenheit_values demo_libs _ _ "run/data.xlsx" "linear"
            demo_sheet_no_fahrenheit).
  - vm_compute. reflexivity.
  - vm_compute. reflexivity.
  - discriminate.
  - repeat constructor.
Defined.

(** X19. On a workbook with rows whose Celsius cells are all dates,
    [read_data] never returns a table: [pd.to_numeric] takes the dates for
    numbers and drops none of them, and the cast to float64 refuses the
    column, so the call ends in [TypeError], unless [pd.to_datetime] has
    raised on the time stamps before; nothing is printed. *)
Theorem read_data_celsius_dates (L : Libs) (path : string)
    (sheet : list (cell * cell * cell)) (w : world) :
  fs w !! path = Some (Workbook sheet) ->
  sheet <> [] ->
  Forall (fun r => is_time r.1.2 = true) sheet ->
  exists e,
    read_data L path w = (Raise e, w)
    /\ (e = TypeError
        \/ datetime_values L
             (map (fun r => r.1.1)
                (List.filter (fun r => notna r.1.1 && notna r.1.2 && notna r.2) sheet))
           = Raise e).
Proof.
  intros Hfile Hne Hall.
  assert (datetime64_column L (map (fun r => r.1.2) sheet) = true) as D.
  { unfold datetime64_column.
    assert (forallb is_time (map (fun r => r.1.2) sheet) = true) as Ht.
    { clear -Hall. induction Hall as [|r sheet' Hr _ IH]; [reflexivity|].
      cbn [map forallb]. now rewrite Hr, IH. }
    rewrite Ht. cbn [orb]. rewrite andb_true_r.
    apply andb_true_iff. split.
    - destruct sheet as [|r sheet']; [contradiction|].
      inversion Hall as [|? ? Hr _]. cbn [map existsb]. now rewrite Hr.
    - clear -Hall. induction Hall as [|r sheet' Hr _ IH]; [reflexivity|].
      cbn [map forallb]. now rewrite Hr, IH. }
  rewrite (read_data_dated L path w sheet Hfile D).
  change (List.filter (fun r => notna r.1.1 && notna r.1.2 && notna r.2) sheet)
    with (List.filter complete_row sheet).
  destruct (datetime_values L _) as [stamps|e] eqn:E.
  - exists TypeError. split; [reflexivity|now left].
  - exists e. split; [reflexivity|now right].
Qed.

Lemma read_data_celsius_dates_witness :
  exists e,
    read_data demo_libs "run/data.xlsx"
      (demo_world [] [(CTime 0, CTime day, CFloat 50); (CTime day, CTime day, CNone)])
    = (Raise e,
       demo_world [] [(CTime 0, CTime day, CFloat 50); (CTime day, CTime day, CNone)])
    /\ (e = TypeError
        \/ datetime_values demo_libs
             (map (fun r => r.1.1)
                (List.filter (fun r => notna r.1.1 && notna r.1.2 && notna r.2)
                   [(CTime 0, CTime day, CFloat 50); (CTime day, CTime day, CNone)]))
           = Raise e).
Proof.
  apply (read_data_celsius_dates demo_libs "run/data.xlsx"
           [(CTime 0, CTime day, CFloat 50); (CTime day, CTime day, CNone)]
           (demo_world [] [(CTime 0, CTime day, CFloat 50); (CTime day, CTime day, CNone)])).
  - vm_compute. reflexivity.
  - discriminate.
  - repeat constructor.
Defined.

(** X20. When the workbook typed at the console has a sheet without rows,
    [main] ends in [KeyError]: the table has no column, and the first use of
    the Celsius column fails; no file is written and nothing is printed
    after the prompts. *)
Theorem main_empty_sheet (L : Libs) (w w1 : world) (file_path fit_option : string) :
  get_user_input w = (Ok (file_path, fit_option), w1) ->
  fs w !! file_path = Some (Workbook []) ->
  main L w = (Raise KeyError, w1) /\ fs w1 = fs w.
Proof.
  intros H1 Hfile. pose proof (get_user_input_fs _ _ _ H1) as Hfs.
  split; [|exact Hfs].
  apply (main_read_raises L _ _ _ _ _ _ H1).
  apply read_data_empty_sheet. now rewrite Hfs.
Qed.

Lemma main_empty_sheet_witness :
  main demo_libs (demo_world ["run/data.xlsx"; "linear"] [])
  = (Raise KeyError, mkWorld [] [prompt_path; prompt_option] (fs (demo_world [] [])))
  /\ fs (mkWorld [] [prompt_path; prompt_option] (fs (demo_world [] [])))
     = fs (demo_world ["run/data.xlsx"; "linear"] []).
Proof.
  apply (main_empty_sheet demo_libs (demo_world ["run/data.xlsx"; "linear"] [])
           (mkWorld [] [prompt_path; prompt_option] (fs (demo_world [] [])))
           "run/data.xlsx" "linear").
  - reflexivity.
  - vm_compute. reflexivity.
Defined.
